(** * Analysis-request orchestration of the code-analyzer dashboard server

    A shallow embedding of the Express handlers and of the two AI service
    classes of the repository:

    - [server/ai_integration.js]          : [AIAnalysisService]
    - [server/advanced_ai_integration.js] : [AdvancedAIService]
    - the three server files (basic, advanced, cloud-function enabled)

    JavaScript values are modelled by the type [Js.value]; objects are
    association lists in insertion order.  Effects (console output, network
    calls, child processes, timers, [Math.random], the clock) are threaded
    through a small state-and-exception monad; what the outside world
    answers is read from a [World] record. *)

From Stdlib Require Import List String Ascii ZArith QArith Qround Bool Lia.
From Stdlib Require Import Sorting.Sorted Sorting.Permutation.
From Stdlib Require Import DecimalString.
Import ListNotations.

Set Warnings "-register-all".

Local Open Scope string_scope.
Local Open Scope Z_scope.

(** ** JavaScript values *)

Module Js.

(** A JavaScript number.  Finite values are kept as exact rationals:
    rounding is not modelled, which leaves the sign of a difference, the
    order of two literals and the range of [Math.floor(Math.random() * k)]
    as they are.  The three special values of IEEE arithmetic are kept
    apart, since division by zero produces them. *)
Inductive number : Type :=
| Fin (q : Q)
| NaN
| PosInf
| NegInf.

Inductive value : Type :=
| Undefined
| Null
| Bool (b : bool)
| Num (n : number)
| Str (s : string)
| Arr (items : list value)
| Obj (fields : list (string * value)).

Definition int (z : Z) : value := Num (Fin (inject_Z z)).

(** [ToBoolean]. *)
Definition number_truthy (n : number) : bool :=
  match n with
  | Fin q => negb (Qeq_bool q 0)
  | NaN => false
  | PosInf | NegInf => true
  end.

Definition truthy (v : value) : bool :=
  match v with
  | Undefined | Null => false
  | Bool b => b
  | Num n => number_truthy n
  | Str s => negb (String.eqb s "")
  | Arr _ | Obj _ => true
  end.

(** [a || b] *)
Definition or_else (a b : value) : value := if truthy a then a else b.

(** [v === 'literal'] for a string literal on one side. *)
Definition strict_eq_str (v : value) (s : string) : bool :=
  match v with
  | Str s' => String.eqb s' s
  | _ => false
  end.

(** Number arithmetic used by the handlers. *)
Definition sub (a b : number) : number :=
  match a, b with
  | Fin x, Fin y => Fin (x - y)
  | NaN, _ | _, NaN => NaN
  | PosInf, PosInf | NegInf, NegInf => NaN
  | PosInf, _ | _, NegInf => PosInf
  | NegInf, _ | _, PosInf => NegInf
  end.

(** [a / b] on finite operands: IEEE division, [0/0] is [NaN]. *)
Definition div (a b : Q) : number :=
  if Qeq_bool b 0 then
    if Qeq_bool a 0 then NaN
    else if Qle_bool 0 a then PosInf else NegInf
  else Fin (a / b).

(** [Math.floor(r * k) + base] for the result [r] of [Math.random()]. *)
Definition random_int (r : Q) (k base : Z) : Z :=
  Qfloor (r * inject_Z k) + base.

(** *** Objects: association lists in insertion order *)

Fixpoint lookup (k : string) (fs : list (string * value)) : option value :=
  match fs with
  | [] => None
  | (k', v) :: fs' => if String.eqb k' k then Some v else lookup k fs'
  end.

(** Define or overwrite an own property; an existing key keeps its place. *)
Fixpoint set_field (k : string) (v : value) (fs : list (string * value))
  : list (string * value) :=
  match fs with
  | [] => [(k, v)]
  | (k', v') :: fs' =>
      if String.eqb k' k then (k, v) :: fs' else (k', v') :: set_field k v fs'
  end.

(** An object literal [{k1: v1, ..., kn: vn}] evaluated left to right. *)
Definition literal (fs : list (string * value)) : list (string * value) :=
  fold_left (fun acc kv => set_field (fst kv) (snd kv) acc) fs [].

(** Destructuring or reading a property of the parsed request body and of
    option bags: absent properties read as [undefined]. *)
Definition field (k : string) (fs : list (string * value)) : value :=
  match lookup k fs with
  | Some v => v
  | None => Undefined
  end.

(** Destructuring with a default: the default applies to [undefined] only. *)
Definition field_default (k : string) (d : value) (fs : list (string * value))
  : value :=
  match field k fs with
  | Undefined => d
  | v => v
  end.

(** [v.k]: reading a property of [null] or [undefined] is a [TypeError]
    ([None]); primitives and arrays have none of the property names the
    server reads. *)
Definition get (v : value) (k : string) : option value :=
  match v with
  | Undefined | Null => None
  | Obj fs => Some (field k fs)
  | _ => Some Undefined
  end.

(** [v?.k] *)
Definition get_opt (v : value) (k : string) : value :=
  match get v k with
  | Some x => x
  | None => Undefined
  end.

Definition nat_key (n : nat) : string :=
  NilZero.string_of_uint (Nat.to_uint n).

Fixpoint indexed {A : Type} (f : A -> value) (i : nat) (l : list A)
  : list (string * value) :=
  match l with
  | [] => []
  | x :: l' => (nat_key i, f x) :: indexed f (S i) l'
  end.

Fixpoint chars (s : string) : list string :=
  match s with
  | EmptyString => []
  | String c s' => String c EmptyString :: chars s'
  end.

(** The own enumerable properties copied by an object spread [{...v}]:
    those of an object, the indices of an array or of a string, none for
    the other values. *)
Definition spread (v : value) : list (string * value) :=
  match v with
  | Obj fs => fs
  | Arr l => indexed (fun x => x) 0 l
  | Str s => indexed Str 0 (chars s)
  | _ => []
  end.

(** *** What [JSON.stringify] lets through

    [res.json] and the body of [fetch] serialize with [JSON.stringify]:
    properties whose value is [undefined] are dropped, [undefined] inside
    an array and the non-finite numbers become [null]. *)
Fixpoint to_json (v : value) : value :=
  match v with
  | Undefined => Null
  | Num (Fin q) => Num (Fin q)
  | Num _ => Null
  | Arr l => Arr (map to_json l)
  | Obj fs =>
      Obj ((fix go (fs : list (string * value)) : list (string * value) :=
              match fs with
              | [] => []
              | (k, Undefined) :: fs' => go fs'
              | (k, x) :: fs' => (k, to_json x) :: go fs'
              end) fs)
  | _ => v
  end.

(** The top-level property names a caller sees in a serialized body. *)
Definition exposed_fields (v : value) : list string :=
  match to_json v with
  | Obj fs => map fst fs
  | _ => []
  end.

Definition fields_to_json (fs : list (string * value))
  : list (string * value) :=
  match to_json (Obj fs) with
  | Obj fs' => fs'
  | _ => []
  end.

(** A property that is present with a value other than [undefined]: it
    survives serialization. *)
Definition has (k : string) (fs : list (string * value)) : Prop :=
  exists v, lookup k fs = Some v /\ v <> Undefined.

End Js.

(** ** Effects *)

Module Eff.

(** A thrown JavaScript [Error]. *)
Record Error : Type := mkError { name : string; message : string }.

Inductive result (A : Type) : Type :=
| Ok (a : A)
| Throw (e : Error).
Arguments Ok {A} a.
Arguments Throw {A} e.

(** What a request does to the outside world, in program order. *)
Inductive event : Type :=
| Console (level text : string) (args : list Js.value)
| ConsoleError (text : string) (e : Error)
| Fetch (url : string) (body : Js.value)
| Spawn (cmd : string) (args : list Js.value)
| SetTimeout (ms : Z).

(** A resolved [fetch]: status line and what [response.json()] gives. *)
Record response : Type := mkResponse {
  status : Z;
  statusText : string;
  json : result Js.value
}.

(** [response.ok] *)
Definition ok (r : response) : bool :=
  (200 <=? status r) && (status r <=? 299).

(** The answer of [fetch]: the promise rejects (network error) or resolves
    to a response. *)
Inductive fetch_outcome : Type :=
| NetworkError (e : Error)
| Responded (r : response).

(** The [code] passed to the ['close'] listener of a child process:
    a number, or [null] when the process was killed by a signal. *)
Inductive exit_code : Type :=
| Code (c : Z)
| Killed.

Record process_outcome : Type := mkProcess {
  code : exit_code;
  stdout : string;
  stderr : string
}.

(** The outside world of one server process: the environment variables,
    the answer of the network to a request, the outcome of a child process
    for a command line, [JSON.parse], and the successive values of
    [Math.random()] and of the clock.  A child process is taken to start
    and to close; its ['error'] event is not modelled. *)
Record World : Type := mkWorld {
  env : string -> option string;
  fetch : string -> Js.value -> fetch_outcome;
  spawn : string -> list Js.value -> process_outcome;
  JSON_parse : string -> result Js.value;
  Math_random : nat -> Q;
  toISOString : nat -> string;
  Date_now : nat -> Z
}.

(** [process.env.X] as a value: a string or [undefined]. *)
Definition env_value (w : World) (k : string) : Js.value :=
  match env w k with
  | Some s => Js.Str s
  | None => Js.Undefined
  end.

Definition env_string (w : World) (k : string) : string :=
  match env w k with
  | Some s => s
  | None => ""
  end.

(** The state of a request: how many random numbers and clock readings
    it has taken, and what it has done so far. *)
Record St : Type := mkSt {
  draws : nat;
  ticks : nat;
  trace : list event
}.

Definition init : St := mkSt 0 0 [].

(** An [async] function or a plain one: it changes the state and returns
    (resolves) or throws (rejects). *)
Definition M (A : Type) : Type := St -> St * result A.

Definition ret {A} (a : A) : M A := fun st => (st, Ok a).

Definition bind {A B} (m : M A) (k : A -> M B) : M B :=
  fun st =>
    match m st with
    | (st', Ok a) => k a st'
    | (st', Throw e) => (st', Throw e)
    end.

Definition throw {A} (e : Error) : M A := fun st => (st, Throw e).

(** A settled promise or a call that may throw. *)
Definition lift {A} (r : result A) : M A := fun st => (st, r).

(** [try { m } catch (e) { h e }] *)
Definition try_catch {A} (m : M A) (h : Error -> M A) : M A :=
  fun st =>
    match m st with
    | (st', Ok a) => (st', Ok a)
    | (st', Throw e) => h e st'
    end.

Definition emit (e : event) : M unit :=
  fun st => (mkSt (draws st) (ticks st) (trace st ++ [e]), Ok tt).

(** [Math.random()] *)
Definition random (w : World) : M Q :=
  fun st => (mkSt (S (draws st)) (ticks st) (trace st),
             Ok (Math_random w (draws st))).

(** [new Date().toISOString()] *)
Definition now_iso (w : World) : M string :=
  fun st => (mkSt (draws st) (S (ticks st)) (trace st),
             Ok (toISOString w (ticks st))).

(** [Date.now()] *)
Definition now_ms (w : World) : M Z :=
  fun st => (mkSt (draws st) (S (ticks st)) (trace st),
             Ok (Date_now w (ticks st))).

Definition log (text : string) (args : list Js.value) : M unit :=
  emit (Console "log" text args).
Definition warn (text : string) (args : list Js.value) : M unit :=
  emit (Console "warn" text args).
Definition error (text : string) (args : list Js.value) : M unit :=
  emit (Console "error" text args).
Definition error_with (text : string) (e : Error) : M unit :=
  emit (ConsoleError text e).

(** [await fetch(url, { method: 'POST', body: JSON.stringify(body) })] *)
Definition post (w : World) (url : string) (body : Js.value) : M response :=
  fun st =>
    let sent := Js.to_json body in
    let st' := mkSt (draws st) (ticks st) (trace st ++ [Fetch url sent]) in
    match fetch w url sent with
    | NetworkError e => (st', Throw e)
    | Responded r => (st', Ok r)
    end.

(** [spawn(cmd, args)] followed to the ['close'] event. *)
Definition run_process (w : World) (cmd : string) (args : list Js.value)
  : M process_outcome :=
  fun st =>
    (mkSt (draws st) (ticks st) (trace st ++ [Spawn cmd args]),
     Ok (spawn w cmd args)).

(** Reading a property, a [TypeError] on [null] and [undefined]. *)
Definition prop (v : Js.value) (k : string) : M Js.value :=
  match Js.get v k with
  | Some x => ret x
  | None =>
      throw (mkError "TypeError"
               ("Cannot read properties of null or undefined (reading '"
                  ++ k ++ "')"))
  end.

Definition string_of_Z (z : Z) : string :=
  NilZero.string_of_int (Z.to_int z).

Definition string_of_code (c : exit_code) : string :=
  match c with
  | Code z => string_of_Z z
  | Killed => "null"
  end.

(** [code === 0] *)
Definition is_zero (c : exit_code) : bool :=
  match c with
  | Code z => z =? 0
  | Killed => false
  end.

(** The network calls and the child processes of a trace. *)
Definition is_fetch (e : event) : bool :=
  match e with
  | Fetch _ _ => true
  | _ => false
  end.

Definition is_spawn (e : event) : bool :=
  match e with
  | Spawn _ _ => true
  | _ => false
  end.

Definition logged (text : string) (e : event) : bool :=
  match e with
  | Console _ t _ => String.eqb t text
  | ConsoleError t _ => String.eqb t text
  | _ => false
  end.

(** A specification of a computation: whatever the state it starts in, it
    appends the events [s] to the trace and ends with the result [r], where
    [Q s r]. *)
Definition spec {A} (m : M A) (Q : list event -> result A -> Prop) : Prop :=
  forall st,
    exists s, trace (fst (m st)) = (trace st ++ s)%list /\ Q s (snd (m st)).

End Eff.

Declare Scope eff_scope.
Delimit Scope eff_scope with eff.
Notation "x <- m ;; k" := (Eff.bind m (fun x => k))
  (at level 100, m at next level, right associativity) : eff_scope.
Notation "m ;; k" := (Eff.bind m (fun _ => k))
  (at level 100, right associativity) : eff_scope.

(** ** Issues *)

Module Issue.

(** An issue object.  The properties that some of the issue literals of the
    repository leave out are optional. *)
Record t : Type := mk {
  type : string;
  severity : string;
  file : string;
  line : Z;
  message : string;
  rule : string;
  suggestion : string;
  ai_detected : option bool;
  confidence : option Q;
  ai_model : option string;
  cloud_function_analysis : option bool;
  remediation_priority : option Z
}.

Definition optional {A} (k : string) (f : A -> Js.value) (o : option A)
  : list (string * Js.value) :=
  match o with
  | Some a => [(k, f a)]
  | None => []
  end.

(** The object an issue literal denotes. *)
Definition to_value (i : t) : Js.value :=
  Js.Obj
    ([("type", Js.Str (type i));
      ("severity", Js.Str (severity i));
      ("file", Js.Str (file i));
      ("line", Js.int (line i));
      ("message", Js.Str (message i));
      ("rule", Js.Str (rule i));
      ("suggestion", Js.Str (suggestion i))]
       ++ optional "ai_detected" Js.Bool (ai_detected i)
       ++ optional "confidence" (fun q => Js.Num (Js.Fin q)) (confidence i)
       ++ optional "ai_model" Js.Str (ai_model i)
       ++ optional "cloud_function_analysis" Js.Bool
            (cloud_function_analysis i)
       ++ optional "remediation_priority" Js.int (remediation_priority i)).

(** [issue.ai_detected] and the like used as a filter predicate. *)
Definition flag (o : option bool) : bool :=
  match o with
  | Some b => b
  | None => false
  end.

(** [i.confidence || 0] *)
Definition confidence_or_0 (i : t) : Q :=
  match confidence i with
  | Some q => q
  | None => 0%Q
  end.

(** A number-valued optional property read as a number; [undefined]
    in arithmetic is [NaN]. *)
Definition priority_number (i : t) : Js.number :=
  match remediation_priority i with
  | Some p => Js.Fin (inject_Z p)
  | None => Js.NaN
  end.

End Issue.

(** ** [AIAnalysisService] (server/ai_integration.js) *)

Module AIAnalysisService.
Import Eff.
Local Open Scope eff_scope.

Record t : Type := mk {
  pythonPath : string;
  scriptPath : string
}.

(** The constructor; [dirname] stands for [__dirname]. *)
Definition new (dirname : string) : t :=
  mk "python3" (dirname ++ "/../python/code_analyzer_ai.py").

Section Service.
Variable w : World.
Variable this : t.

(** The arguments of the spawned analysis script. *)
Definition arguments (repoPath : Js.value) : list Js.value :=
  [Js.Str (scriptPath this); Js.Str "--repo-path"; repoPath;
   Js.Str "--format"; Js.Str "json"].

(** [analyzeWithAI(repoPath, options)]: the promise settles in the
    ['close'] listener. *)
Definition analyzeWithAI (repoPath : Js.value)
    (options : list (string * Js.value)) : M Js.value :=
  log "🤖 Starting AI-powered analysis..." [];;
  p <- run_process w (pythonPath this) (arguments repoPath);;
  if is_zero (code p) then
    try_catch
      (result <- lift (JSON_parse w (stdout p));;
       log "✅ AI analysis completed successfully" [];;
       ret result)
      (fun parseError =>
         error_with "❌ Failed to parse AI analysis result:" parseError;;
         throw (mkError "Error" "Invalid AI analysis output"))
  else
    error "❌ AI analysis failed:" [Js.Str (stderr p)];;
    throw (mkError "Error"
             ("AI analysis process exited with code "
                ++ string_of_code (code p))).

End Service.
End AIAnalysisService.

(** ** [AdvancedAIService] (server/advanced_ai_integration.js) *)

Module AdvancedAIService.
Import Eff.
Local Open Scope eff_scope.

Record t : Type := mk {
  pythonPath : string;
  endpointManagerPath : string;
  cloudFunctionPath : string;
  isInitialized : bool;
  endpointId : option string
}.

(** The constructor; [dirname] stands for [__dirname]. *)
Definition new (dirname : string) : t :=
  mk "python3"
     (dirname ++ "/../python/vertex_ai_endpoint_manager.py")
     (dirname ++ "/../python/cloud_function_analyzer.py")
     false None.

(** The two canned issues of the fallback analysis. *)
Definition fallback_issues : list Issue.t :=
  [ Issue.mk "quality" "medium" "example.py" 42
      "Function complexity could be reduced" "FALLBACK-001"
      "Consider breaking down complex functions"
      None (Some (7 # 10)%Q) None None None;
    Issue.mk "security" "high" "auth.py" 15
      "Potential security vulnerability detected" "FALLBACK-002"
      "Review authentication implementation"
      None (Some (6 # 10)%Q) None None None ].

Section Service.
Variable w : World.
Variable this : t.

(** [getFallbackAnalysis(repoPath, options)] *)
Definition getFallbackAnalysis (repoPath : Js.value)
    (options : list (string * Js.value)) : M (list (string * Js.value)) :=
  log "📊 Using fallback analysis mode" [];;
  timestamp <- now_iso w;;
  r1 <- random w;;
  r2 <- random w;;
  ret (Js.literal
    [("success", Js.Bool true);
     ("message", Js.Str "Analysis completed using fallback mode");
     ("repoPath", repoPath);
     ("commitHash", Js.or_else (Js.field "commitHash" options)
                      (Js.Str "HEAD"));
     ("timestamp", Js.Str timestamp);
     ("repository_analysis", Js.Obj (Js.literal
        [("overall_score", Js.int (Js.random_int r1 20 75));
         ("total_files", Js.int (Js.random_int r2 30 20));
         ("risk_level", Js.Str "medium");
         ("deployment_ready", Js.Bool true)]));
     ("issues", Js.Arr (map Issue.to_value fallback_issues));
     ("recommendations", Js.Arr
        [Js.Str "Enable AI analysis for more comprehensive results";
         Js.Str "Configure Vertex AI credentials for advanced features";
         Js.Str "Consider implementing automated testing"]);
     ("summary", Js.Str
        "Fallback analysis completed. Enable AI for enhanced results.");
     ("ai_powered", Js.Bool false);
     ("fallback_mode", Js.Bool true)]).

(** Two consecutive calls of [getFallbackAnalysis] with the same
    arguments. *)
Definition getFallbackAnalysis_twice (repoPath : Js.value)
    (options : list (string * Js.value))
  : M (list (string * Js.value) * list (string * Js.value)) :=
  first <- getFallbackAnalysis repoPath options;;
  second <- getFallbackAnalysis repoPath options;;
  ret (first, second).

(** [enhanceAnalysisResult(result, analysisData)] *)
Definition enhanceAnalysisResult (result : Js.value)
    (analysisData : list (string * Js.value))
  : M (list (string * Js.value)) :=
  timestamp <- now_iso w;;
  repository_analysis <- prop result "repository_analysis";;
  ret (Js.literal
    (Js.spread result ++
     [("enhanced_metadata", Js.Obj (Js.literal
        [("analysis_timestamp", Js.Str timestamp);
         ("analysis_method",
          Js.Str (if Js.truthy (Js.field "useCloudFunction" analysisData)
                  then "cloud_function" else "local_endpoint"));
         ("ai_powered", Js.Bool true);
         ("vertex_ai_enabled", Js.Bool (isInitialized this));
         ("endpoint_id", match endpointId this with
                         | Some id => Js.Str id
                         | None => Js.Null
                         end);
         ("service_version", Js.Str "2.0.0")]));
      ("performance_metrics", Js.Obj (Js.literal
        [("analysis_duration", Js.Str "45.2s");
         ("files_processed",
          Js.or_else (Js.get_opt repository_analysis "total_files")
            (Js.int 0));
         ("ai_confidence", Js.Num (Js.Fin (92 # 100)));
         ("model_version", Js.Str "vertex-ai-code-bison-v2")]))])).

(** The arguments of the spawned endpoint manager. *)
Definition arguments (analysisData : list (string * Js.value))
  : list Js.value :=
  [Js.Str (endpointManagerPath this); Js.Str "--analyze";
   Js.Str "--repo-path"; Js.field "repoPath" analysisData;
   Js.Str "--commit-hash"; Js.field "commitHash" analysisData;
   Js.Str "--format"; Js.Str "json"].

(** [analyzeWithLocalEndpoint(analysisData)]: every branch of the
    ['close'] listener resolves. *)
Definition analyzeWithLocalEndpoint (analysisData : list (string * Js.value))
  : M (list (string * Js.value)) :=
  p <- run_process w (pythonPath this) (arguments analysisData);;
  if is_zero (code p) then
    try_catch
      (result <- lift (JSON_parse w (stdout p));;
       log "✅ AI analysis completed successfully" [];;
       enhanceAnalysisResult result analysisData)
      (fun parseError =>
         error_with "❌ Failed to parse AI analysis result:" parseError;;
         getFallbackAnalysis (Js.field "repoPath" analysisData) analysisData)
  else
    error "❌ AI analysis process failed:" [Js.Str (stderr p)];;
    getFallbackAnalysis (Js.field "repoPath" analysisData) analysisData.

(** [analyzeWithCloudFunction(analysisData)] *)
Definition analyzeWithCloudFunction (analysisData : list (string * Js.value))
  : M (list (string * Js.value)) :=
  let cloudFunctionUrl := env_value w "CLOUD_FUNCTION_URL" in
  if negb (Js.truthy cloudFunctionUrl) then
    throw (mkError "Error" "Cloud Function URL not configured")
  else
    try_catch
      (response <- post w (env_string w "CLOUD_FUNCTION_URL")
                     (Js.Obj analysisData);;
       if negb (ok response) then
         throw (mkError "Error"
                  ("Cloud Function request failed: " ++ statusText response))
       else
         result <- lift (json response);;
         log "✅ Cloud Function analysis completed" [];;
         analysis <- prop result "analysis";;
         enhanceAnalysisResult analysis analysisData)
      (fun error =>
         error_with "❌ Cloud Function analysis failed:" error;;
         throw error).

(** [analyzeRepositoryWithAI(repoPath, options)] *)
Definition analyzeRepositoryWithAI (repoPath : Js.value)
    (options : list (string * Js.value)) : M (list (string * Js.value)) :=
  if negb (isInitialized this) then
    warn "⚠️ AI Service not initialized, using fallback analysis" [];;
    getFallbackAnalysis repoPath options
  else
    try_catch
      (log "🔍 Starting advanced AI repository analysis..." [];;
       let analysisData := Js.literal
         [("repoPath", repoPath);
          ("commitHash", Js.or_else (Js.field "commitHash" options)
                           (Js.Str "HEAD"));
          ("analysisType", Js.or_else (Js.field "analysisType" options)
                             (Js.Str "comprehensive"));
          ("useCloudFunction",
           Js.or_else (Js.field "useCloudFunction" options)
             (Js.Bool false))] in
       if Js.truthy (Js.field "useCloudFunction" analysisData) then
         analyzeWithCloudFunction analysisData
       else
         analyzeWithLocalEndpoint analysisData)
      (fun error =>
         Eff.error "❌ AI analysis failed:" [Js.Str (message error)];;
         getFallbackAnalysis repoPath options).

End Service.
End AdvancedAIService.

(** ** What the Express handlers share *)

Module Http.
Import Eff.

(** [res.status(code).json(body)]; [res.json(body)] is status 200. *)
Record reply : Type := mkReply {
  code : Z;
  body : Js.value
}.

(** What the caller receives: the serialized body. *)
Definition sent (r : reply) : Js.value := Js.to_json (body r).

(** A handler run from a fresh request: its trace, and its reply unless the
    handler's promise rejected. *)
Definition run {A} (m : M A) : list event * result A :=
  (trace (fst (m init)), snd (m init)).

Definition client_error (r : reply) : Prop := 400 <= code r < 500.

End Http.

(** The destructuring of the body of [POST /api/analyze], with its
    defaults. *)
Module Body.

Definition repoPath (body : list (string * Js.value)) : Js.value :=
  Js.field "repoPath" body.

Definition commitHash (body : list (string * Js.value)) : Js.value :=
  Js.field "commitHash" body.

Definition analysisType (body : list (string * Js.value)) : Js.value :=
  Js.field_default "analysisType" (Js.Str "comprehensive") body.

Definition useAI (body : list (string * Js.value)) : Js.value :=
  Js.field_default "useAI" (Js.Bool true) body.

Definition useCloudFunction (body : list (string * Js.value)) : Js.value :=
  Js.field_default "useCloudFunction" (Js.Bool false) body.

End Body.

(** ** [Array.prototype.sort] and the comparator of [/api/issues] *)

Module IssueList.

(** The sign test a sort applies to the result of a comparator: only a
    strictly positive result moves [b] before [a]. *)
Definition positive (n : Js.number) : bool :=
  match n with
  | Js.Fin q => negb (Qle_bool q 0)
  | Js.PosInf => true
  | Js.NaN | Js.NegInf => false
  end.

Section Sort.
Context {A : Type} (comparefn : A -> A -> Js.number).

Fixpoint insert (x : A) (l : list A) : list A :=
  match l with
  | [] => [x]
  | y :: l' => if positive (comparefn x y) then y :: insert x l' else x :: l
  end.

(** [l.sort(comparefn)].  The sort of the language is stable; with a
    consistent comparator every stable sort returns the same array, here
    the one built by insertion from the right. *)
Definition sort (l : list A) : list A := fold_right insert [] l.

End Sort.

(** [a !== b] on optional numbers. *)
Definition differ (a b : option Z) : bool :=
  match a, b with
  | Some x, Some y => negb (x =? y)
  | None, None => false
  | _, _ => true
  end.

(** The comparator of both sorted [/api/issues] handlers. *)
Definition comparefn (a b : Issue.t) : Js.number :=
  if differ (Issue.remediation_priority a) (Issue.remediation_priority b)
  then Js.sub (Issue.priority_number a) (Issue.priority_number b)
  else Js.Fin (Issue.confidence_or_0 b - Issue.confidence_or_0 a).

(** [(i.confidence || 0) > 0.9] *)
Definition high_confidence (i : Issue.t) : bool :=
  negb (Qle_bool (Issue.confidence_or_0 i) (9 # 10)).

(** [l.reduce((sum, i) => sum + (i.confidence || 0), 0) / l.length] *)
Definition avg_confidence (l : list Issue.t) : Js.number :=
  Js.div (fold_left (fun sum i => (sum + Issue.confidence_or_0 i)%Q) l 0%Q)
         (inject_Z (Z.of_nat (List.length l))).

Definition count (f : Issue.t -> bool) (l : list Issue.t) : Js.value :=
  Js.int (Z.of_nat (List.length (filter f l))).

(** [if (x) l = l.filter(issue => issue.k === x)] *)
Definition filter_by (x : Js.value) (k : Issue.t -> string)
    (l : list Issue.t) : list Issue.t :=
  if Js.truthy x then filter (fun issue => Js.strict_eq_str x (k issue)) l
  else l.

(** [if (x === 'true') l = l.filter(issue => issue.k)] *)
Definition filter_flag (x : Js.value) (k : Issue.t -> option bool)
    (l : list Issue.t) : list Issue.t :=
  if Js.strict_eq_str x "true" then filter (fun issue => Issue.flag (k issue)) l
  else l.

(** An issue carries a numeric priority. *)
Definition prioritized (i : Issue.t) : Prop :=
  Issue.remediation_priority i <> None.

(** [a] may stand before [b]: ascending [remediation_priority], ties by
    descending [confidence]. *)
Definition before (a b : Issue.t) : Prop :=
  match Issue.remediation_priority a, Issue.remediation_priority b with
  | Some pa, Some pb =>
      pa < pb
      \/ (pa = pb
          /\ (Issue.confidence_or_0 b <= Issue.confidence_or_0 a)%Q)
  | _, _ => False
  end.

End IssueList.

(** ** The cloud-function enabled server (api_version 2.1.0) *)

Module EnhancedServer.
Import Eff.
Local Open Scope eff_scope.

(** The issue literals of [GET /api/issues]. *)
Definition issues : list Issue.t :=
  [ Issue.mk "security" "critical" "auth/login.py" 42
      "SQL injection vulnerability detected by Cloud Function AI"
      "CF-SEC-001"
      "Use parameterized queries. Cloud Function analysis shows 97% confidence this is exploitable."
      (Some true) (Some (97 # 100)%Q) (Some "vertex-ai-cloud-function")
      (Some true) (Some 1);
    Issue.mk "quality" "high" "utils/helpers.py" 128
      "High cyclomatic complexity detected across repository context"
      "CF-QUAL-002"
      "Cloud Function AI recommends refactoring based on repository-wide analysis"
      (Some true) (Some (91 # 100)%Q) (Some "vertex-ai-cloud-function")
      (Some true) (Some 2);
    Issue.mk "performance" "medium" "api/endpoints.py" 67
      "Repository-wide performance pattern analysis reveals bottleneck"
      "CF-PERF-003"
      "Cloud Function detected similar patterns in 3 other files - implement caching strategy"
      (Some true) (Some (88 # 100)%Q) (Some "vertex-ai-cloud-function")
      (Some true) (Some 3);
    Issue.mk "security" "high" "config/settings.py" 15
      "Hardcoded secrets detected by multi-file AI analysis"
      "CF-SEC-004"
      "Cloud Function found 5 similar patterns across repository - implement secret management"
      (Some true) (Some (93 # 100)%Q) (Some "vertex-ai-cloud-function")
      (Some true) (Some 1) ].

(** The issues that pass the four filters of [GET /api/issues]; [query] is
    [req.query]. *)
Definition matching (query : list (string * Js.value)) : list Issue.t :=
  let type := Js.field "type" query in
  let severity := Js.field "severity" query in
  let ai_only := Js.field "ai_only" query in
  let cloud_function_only := Js.field "cloud_function_only" query in
  IssueList.filter_flag cloud_function_only Issue.cloud_function_analysis
    (IssueList.filter_flag ai_only Issue.ai_detected
       (IssueList.filter_by severity Issue.severity
          (IssueList.filter_by type Issue.type issues))).

(** The array [filteredIssues] after the in-place sort. *)
Definition filteredIssues (query : list (string * Js.value))
  : list Issue.t :=
  IssueList.sort IssueList.comparefn (matching query).

(** [app.get('/api/issues', ...)] *)
Definition get_issues (query : list (string * Js.value)) : Http.reply :=
  let filteredIssues := filteredIssues query in
  Http.mkReply 200 (Js.Obj (Js.literal
    [("issues", Js.Arr (map Issue.to_value filteredIssues));
     ("metadata", Js.Obj (Js.literal
        [("total_issues", Js.int (Z.of_nat (List.length filteredIssues)));
         ("ai_detected_issues",
          IssueList.count (fun i => Issue.flag (Issue.ai_detected i))
            filteredIssues);
         ("cloud_function_issues",
          IssueList.count
            (fun i => Issue.flag (Issue.cloud_function_analysis i))
            filteredIssues);
         ("avg_confidence",
          Js.Num (IssueList.avg_confidence filteredIssues));
         ("high_confidence_issues",
          IssueList.count IssueList.high_confidence filteredIssues)]))])).

Section Analyze.
Variable w : World.
Variable aiService : AdvancedAIService.t.

(** The catch branch of [POST /api/analyze]. *)
Definition analysis_failed (repoPath commitHash : Js.value) (error : Error)
  : M Http.reply :=
  error_with "Analysis failed:" error;;
  timestamp <- now_iso w;;
  ret (Http.mkReply 500 (Js.Obj (Js.literal
    [("success", Js.Bool false);
     ("message", Js.Str "Analysis failed");
     ("error", Js.Str (message error));
     ("repoPath", repoPath);
     ("commitHash", commitHash);
     ("timestamp", Js.Str timestamp);
     ("fallback_available", Js.Bool true)]))).

(** The request body posted to the cloud function. *)
Definition cloud_request (repoPath commitHash analysisType : Js.value)
  : Js.value :=
  Js.Obj (Js.literal
    [("repoPath", repoPath);
     ("commitHash", Js.or_else commitHash (Js.Str "HEAD"));
     ("analysisType", analysisType)]).

(** The cloud-function call inside the inner [try]. *)
Definition cloud_function_analysis
    (repoPath commitHash analysisType : Js.value)
  : M (list (string * Js.value)) :=
  let cloudFunctionUrl := env_string w "CLOUD_FUNCTION_URL" in
  response <- post w cloudFunctionUrl
                (cloud_request repoPath commitHash analysisType);;
  if negb (ok response) then
    throw (mkError "Error"
             ("Cloud Function request failed: " ++ statusText response))
  else
    cloudResult <- lift (json response);;
    status <- prop cloudResult "status";;
    timestamp <- now_iso w;;
    issues <- prop cloudResult "issues";;
    metadata <- prop cloudResult "metadata";;
    analysis <- prop cloudResult "repository_analysis";;
    repository_analysis <-
      (if Js.truthy analysis then ret analysis
       else
         r <- random w;;
         ret (Js.Obj (Js.literal
           [("overall_score", Js.int (Js.random_int r 20 80));
            ("total_files",
             Js.or_else (Js.get_opt metadata "files_analyzed") (Js.int 0));
            ("risk_level", Js.Str "medium");
            ("deployment_ready", Js.Bool true)])));;
    ret (Js.literal
      [("success", Js.Bool (Js.strict_eq_str status "success"));
       ("message", Js.Str "Cloud Function analysis completed successfully");
       ("repoPath", repoPath);
       ("commitHash", commitHash);
       ("timestamp", Js.Str timestamp);
       ("issues", Js.or_else issues (Js.Arr []));
       ("metadata", metadata);
       ("cloud_function_used", Js.Bool true);
       ("repository_analysis", repository_analysis)]).

(** The options passed to [analyzeRepositoryWithAI] by this server. *)
Definition local_options (commitHash analysisType : Js.value)
  : list (string * Js.value) :=
  Js.literal
    [("commitHash", commitHash);
     ("analysisType", analysisType);
     ("useCloudFunction", Js.Bool false)].

(** The standard analysis of the last branch. *)
Definition standard_analysis (repoPath commitHash : Js.value)
  : M (list (string * Js.value)) :=
  log "📊 Using standard analysis..." [];;
  emit (SetTimeout 2000);;
  timestamp <- now_iso w;;
  r1 <- random w;;
  r2 <- random w;;
  ret (Js.literal
    [("success", Js.Bool true);
     ("message", Js.Str "Standard analysis completed");
     ("repoPath", repoPath);
     ("commitHash", commitHash);
     ("timestamp", Js.Str timestamp);
     ("repository_analysis", Js.Obj (Js.literal
        [("overall_score", Js.int (Js.random_int r1 20 80));
         ("total_files", Js.int (Js.random_int r2 20 40));
         ("risk_level", Js.Str "medium");
         ("deployment_ready", Js.Bool true)]));
     ("ai_powered", Js.Bool false)]).

(** [useCloudFunction && process.env.CLOUD_FUNCTION_URL] *)
Definition cloud_function_selected (useCloudFunction : Js.value) : bool :=
  Js.truthy useCloudFunction && Js.truthy (env_value w "CLOUD_FUNCTION_URL").

(** The selection of the backend: the body of the outer [try] up to the
    assignment of [analysisResults]. *)
Definition select_backend
    (repoPath commitHash analysisType useAI useCloudFunction : Js.value)
  : M (list (string * Js.value)) :=
  if cloud_function_selected useCloudFunction then
    log "☁️ Using Cloud Function for enhanced repository analysis..." [];;
    try_catch
      (cloud_function_analysis repoPath commitHash analysisType)
      (fun cloudError =>
         error_with "Cloud Function failed, falling back to local AI:"
           cloudError;;
         analysisResults <-
           AdvancedAIService.analyzeRepositoryWithAI w aiService repoPath
             (local_options commitHash analysisType);;
         ret (Js.set_field "cloud_function_fallback" (Js.Bool true)
                analysisResults))
  else if Js.truthy useAI then
    log "🤖 Using Local AI Analysis..." [];;
    AdvancedAIService.analyzeRepositoryWithAI w aiService repoPath
      (local_options commitHash analysisType)
  else
    standard_analysis repoPath commitHash.

(** [app.post('/api/analyze', ...)]; [body] is [req.body]. *)
Definition post_analyze (body : list (string * Js.value)) : M Http.reply :=
  let repoPath := Body.repoPath body in
  let commitHash := Body.commitHash body in
  let analysisType := Body.analysisType body in
  let useAI := Body.useAI body in
  let useCloudFunction := Body.useCloudFunction body in
  log "🔍 Starting ${analysisType} analysis for: ${repoPath}"
    [analysisType; repoPath];;
  log "📡 Cloud Function: ${useCloudFunction ? 'Enabled' : 'Disabled'}"
    [Js.Str (if Js.truthy useCloudFunction then "Enabled" else "Disabled")];;
  try_catch
    (analysisResults <-
       select_backend repoPath commitHash analysisType useAI
         useCloudFunction;;
     now <- now_ms w;;
     ret (Http.mkReply 200 (Js.Obj
       (Js.set_field "request_metadata" (Js.Obj (Js.literal
          [("analysis_type", analysisType);
           ("ai_enabled", useAI);
           ("cloud_function_enabled", useCloudFunction);
           ("processing_time", Js.Str "45.2s");
           ("request_id", Js.Str ("req_" ++ string_of_Z now));
           ("api_version", Js.Str "2.1.0")]))
          analysisResults))))
    (analysis_failed repoPath commitHash).

End Analyze.
End EnhancedServer.

(** ** The advanced server (api_version 2.0.0, server/ai_integration.js) *)

Module AdvancedServer.
Import Eff.
Local Open Scope eff_scope.

Definition issues : list Issue.t :=
  [ Issue.mk "security" "critical" "auth/login.py" 42
      "SQL injection vulnerability detected by AI analysis"
      "AI-SEC-001"
      "Use parameterized queries. AI detected 95% confidence this is exploitable."
      (Some true) (Some (95 # 100)%Q) (Some "vertex-ai-security-scanner")
      None (Some 1);
    Issue.mk "quality" "high" "utils/helpers.py" 128
      "High cyclomatic complexity detected (CC: 18)"
      "AI-QUAL-002"
      "AI recommends breaking this function into 3 smaller functions"
      (Some true) (Some (89 # 100)%Q) (Some "vertex-ai-code-quality")
      None (Some 2);
    Issue.mk "performance" "medium" "api/endpoints.py" 67
      "Potential N+1 query pattern detected"
      "AI-PERF-003"
      "AI suggests implementing query batching or eager loading"
      (Some true) (Some (82 # 100)%Q) (Some "vertex-ai-performance")
      None (Some 3);
    Issue.mk "security" "high" "config/settings.py" 15
      "Hardcoded API key detected by AI pattern recognition"
      "AI-SEC-004"
      "Move to environment variables. AI found similar patterns in 3 other files."
      (Some true) (Some (91 # 100)%Q) (Some "vertex-ai-secret-scanner")
      None (Some 1) ].

(** The issues that pass the three filters of [GET /api/issues]. *)
Definition matching (query : list (string * Js.value)) : list Issue.t :=
  let type := Js.field "type" query in
  let severity := Js.field "severity" query in
  let ai_only := Js.field "ai_only" query in
  IssueList.filter_flag ai_only Issue.ai_detected
    (IssueList.filter_by severity Issue.severity
       (IssueList.filter_by type Issue.type issues)).

(** The array [filteredIssues] after the in-place sort. *)
Definition filteredIssues (query : list (string * Js.value))
  : list Issue.t :=
  IssueList.sort IssueList.comparefn (matching query).

(** [app.get('/api/issues', ...)] *)
Definition get_issues (query : list (string * Js.value)) : Http.reply :=
  let filteredIssues := filteredIssues query in
  Http.mkReply 200 (Js.Obj (Js.literal
    [("issues", Js.Arr (map Issue.to_value filteredIssues));
     ("metadata", Js.Obj (Js.literal
        [("total_issues", Js.int (Z.of_nat (List.length filteredIssues)));
         ("ai_detected_issues",
          IssueList.count (fun i => Issue.flag (Issue.ai_detected i))
            filteredIssues);
         ("avg_confidence",
          Js.Num (IssueList.avg_confidence filteredIssues));
         ("high_confidence_issues",
          IssueList.count IssueList.high_confidence filteredIssues)]))])).

Section Analyze.
Variable w : World.
Variable aiService : AdvancedAIService.t.

(** [app.post('/api/analyze', ...)] *)
Definition post_analyze (body : list (string * Js.value)) : M Http.reply :=
  let repoPath := Body.repoPath body in
  let commitHash := Body.commitHash body in
  let analysisType := Body.analysisType body in
  let useAI := Body.useAI body in
  log "🔍 Starting ${analysisType} analysis for: ${repoPath}"
    [analysisType; repoPath];;
  try_catch
    (analysisResults <-
       (if Js.truthy useAI then
          log "🤖 Using Advanced AI Analysis with Vertex AI..." [];;
          AdvancedAIService.analyzeRepositoryWithAI w aiService repoPath
            (Js.literal
               [("commitHash", commitHash);
                ("analysisType", analysisType);
                ("useCloudFunction",
                 Js.Bool (Js.strict_eq_str
                            (env_value w "USE_CLOUD_FUNCTION") "true"))])
        else
          EnhancedServer.standard_analysis w repoPath commitHash);;
     now <- now_ms w;;
     ret (Http.mkReply 200 (Js.Obj
       (Js.set_field "request_metadata" (Js.Obj (Js.literal
          [("analysis_type", analysisType);
           ("ai_enabled", useAI);
           ("processing_time", Js.Str "45.2s");
           ("request_id", Js.Str ("req_" ++ string_of_Z now));
           ("api_version", Js.Str "2.0.0")]))
          analysisResults))))
    (EnhancedServer.analysis_failed w repoPath commitHash).

End Analyze.
End AdvancedServer.

(** ** The basic server (no cloud function, [AIAnalysisService]) *)

Module BasicServer.
Import Eff.
Local Open Scope eff_scope.

Section Analyze.
Variable w : World.
Variable aiService : AIAnalysisService.t.

(** [app.post('/api/analyze', ...)] *)
Definition post_analyze (body : list (string * Js.value)) : M Http.reply :=
  let repoPath := Body.repoPath body in
  let commitHash := Body.commitHash body in
  let useAI := Body.useAI body in
  log "🔍 Starting analysis for: ${repoPath}" [repoPath];;
  try_catch
    (analysisResults <-
       (if Js.truthy useAI
           && Js.truthy (env_value w "GOOGLE_APPLICATION_CREDENTIALS")
        then
          log "🤖 Using AI-powered analysis..." [];;
          AIAnalysisService.analyzeWithAI w aiService repoPath
            (Js.literal [("commitHash", commitHash)])
        else
          log "📊 Using standard analysis..." [];;
          emit (SetTimeout 2000);;
          timestamp <- now_iso w;;
          r1 <- random w;;
          r2 <- random w;;
          r3 <- random w;;
          ret (Js.Obj (Js.literal
            [("success", Js.Bool true);
             ("message", Js.Str "Analysis completed successfully");
             ("repoPath", repoPath);
             ("commitHash", commitHash);
             ("timestamp", Js.Str timestamp);
             ("results", Js.Obj (Js.literal
                [("qualityScore", Js.int (Js.random_int r1 20 80));
                 ("issuesFound", Js.int (Js.random_int r2 10 15));
                 ("filesAnalyzed", Js.int (Js.random_int r3 20 40));
                 ("ai_powered", Js.Bool false)]))])));;
     ret (Http.mkReply 200 analysisResults))
    (fun error =>
       error_with "Analysis failed:" error;;
       timestamp <- now_iso w;;
       ret (Http.mkReply 500 (Js.Obj (Js.literal
         [("success", Js.Bool false);
          ("message", Js.Str "Analysis failed");
          ("error", Js.Str (message error));
          ("repoPath", repoPath);
          ("commitHash", commitHash);
          ("timestamp", Js.Str timestamp)])))).

End Analyze.
End BasicServer.

(** ** Vocabulary of the specification *)

Module Shape.
Import Js.

(** The fields shared by the results the server builds itself. *)
Definition common (fs : list (string * value)) : Prop :=
  has "success" fs /\ has "message" fs /\ has "timestamp" fs
  /\ has "repository_analysis" fs.

(** The fields [enhanceAnalysisResult] adds to the output of a backend. *)
Definition enhanced (fs : list (string * value)) : Prop :=
  has "enhanced_metadata" fs /\ has "performance_metrics" fs.

(** The marks of the deterministic fallback. *)
Definition fallback (fs : list (string * value)) : Prop :=
  lookup "fallback_mode" fs = Some (Bool true)
  /\ lookup "ai_powered" fs = Some (Bool false)
  /\ lookup "success" fs = Some (Bool true).

(** Type and severity of the issues of a result, by position. *)
Definition categories (fs : list (string * value)) : list (value * value) :=
  match field "issues" fs with
  | Arr l => map (fun i => (get_opt i "type", get_opt i "severity")) l
  | _ => []
  end.

(** [repository_analysis.overall_score] *)
Definition overall_score (fs : list (string * value)) : value :=
  get_opt (field "repository_analysis" fs) "overall_score".

End Shape.

Module Trace.
Import Eff.

(** The network calls of a trace. *)
Definition fetches (tr : list event) : list event := filter is_fetch tr.

(** A step of the fallback chain shows in the trace: a network call, a
    child process, the deterministic fallback or the standard analysis. *)
Definition backend_step (e : event) : bool :=
  is_fetch e || is_spawn e
  || logged "📊 Using fallback analysis mode" e
  || logged "📊 Using standard analysis..." e.

Definition backend_attempted (tr : list event) : bool :=
  existsb backend_step tr.

Definition was_logged (text : string) (tr : list event) : bool :=
  existsb (logged text) tr.

(** The remote backend call fails: a network error or a status that is not
    2xx. *)
Definition remote_failed (o : fetch_outcome) : Prop :=
  match o with
  | NetworkError _ => True
  | Responded r => ok r = false
  end.

(** [Math.random()] returns a number of the interval [0, 1). *)
Definition random_in_unit_interval (w : World) : Prop :=
  forall n, (0 <= Math_random w n)%Q /\ (Math_random w n < 1)%Q.

(** The local analysis process fails: a non-zero exit status, or an output
    that is not a JSON document. *)
Definition process_failed (w : World) (p : process_outcome) : Prop :=
  is_zero (code p) = false \/ exists e, JSON_parse w (stdout p) = Throw e.

End Trace.

(** What the handler of [POST /api/analyze] of the cloud-function enabled
    server guarantees. *)
Module Contract.
Import Eff.

Section Analyze.
Variable w : World.

(** The outcome of the call to the remote backend for a request. *)
Definition remote_outcome (repoPath commitHash analysisType : Js.value)
  : fetch_outcome :=
  fetch w (env_string w "CLOUD_FUNCTION_URL")
    (Js.to_json
       (EnhancedServer.cloud_request repoPath commitHash analysisType)).

(** The line logged when the next path after the cloud function starts. *)
Definition next_path (useAI : Js.value) : string :=
  if Js.truthy useAI then "🤖 Using Local AI Analysis..."
  else "📊 Using standard analysis...".

(** The selection of the backend, branch by branch. *)
Definition selected
    (repoPath commitHash analysisType useAI useCloudFunction : Js.value)
    (s : list event) (r : result (list (string * Js.value))) : Prop :=
  Trace.backend_attempted s = true
  /\ (exists fs, r = Ok fs /\ (Shape.common fs \/ Shape.enhanced fs))
  /\ (EnhancedServer.cloud_function_selected w useCloudFunction = false ->
      Trace.fetches s = []
      /\ Trace.was_logged (next_path useAI) s = true)
  /\ (EnhancedServer.cloud_function_selected w useCloudFunction = true ->
      Trace.remote_failed (remote_outcome repoPath commitHash analysisType) ->
      Trace.was_logged "Cloud Function failed, falling back to local AI:" s
      = true
      /\ exists fs, r = Ok fs
           /\ Js.lookup "cloud_function_fallback" fs = Some (Js.Bool true)).

(** A whole run of the handler. *)
Definition analyzed (body : list (string * Js.value))
    (s : list event) (r : result Http.reply) : Prop :=
  Trace.backend_attempted s = true
  /\ exists fs,
      r = Ok (Http.mkReply 200 (Js.Obj fs))
      /\ Js.has "request_metadata" fs
      /\ (Shape.common fs \/ Shape.enhanced fs)
      /\ (EnhancedServer.cloud_function_selected w
            (Body.useCloudFunction body) = false ->
          Trace.fetches s = []
          /\ Trace.was_logged (next_path (Body.useAI body)) s = true)
      /\ (EnhancedServer.cloud_function_selected w
            (Body.useCloudFunction body) = true ->
          Trace.remote_failed
            (remote_outcome (Body.repoPath body) (Body.commitHash body)
               (Body.analysisType body)) ->
          Trace.was_logged
            "Cloud Function failed, falling back to local AI:" s = true
          /\ Js.lookup "cloud_function_fallback" fs = Some (Js.Bool true)).

End Analyze.

(** The body of an error reply for the caught error [e]. *)
Definition error_reply (e : Error) (fs : list (string * Js.value)) : Prop :=
  Js.lookup "success" fs = Some (Js.Bool false)
  /\ Js.lookup "message" fs = Some (Js.Str "Analysis failed")
  /\ Js.lookup "error" fs = Some (Js.Str (message e)).

End Contract.

(** ** Sentences of the specification that the code does not satisfy,
       as they are written *)

Module Stated.
Import Eff.

(** Every result of [POST /api/analyze] exposes the same top-level
    fields. *)
Definition shape_invariance : Prop :=
  forall w1 service1 body1 tr1 reply1 w2 service2 body2 tr2 reply2,
    Http.run (EnhancedServer.post_analyze w1 service1 body1)
    = (tr1, Ok reply1) ->
    Http.run (EnhancedServer.post_analyze w2 service2 body2)
    = (tr2, Ok reply2) ->
    forall k,
      In k (Js.exposed_fields (Http.body reply1))
      <-> In k (Js.exposed_fields (Http.body reply2)).

(** A body without [repoPath] is answered with a 4xx status and no backend
    is attempted. *)
Definition rejects_missing_locator (w : World)
    (service : AdvancedAIService.t) (body : list (string * Js.value))
  : Prop :=
  Js.lookup "repoPath" body = None ->
  exists tr reply,
    Http.run (EnhancedServer.post_analyze w service body) = (tr, Ok reply)
    /\ Http.client_error reply
    /\ Trace.backend_attempted tr = false.

(** Only a summarized message and a success flag cross the HTTP
    boundary. *)
Definition summary_only (reply : Http.reply) : Prop :=
  forall k, In k (Js.exposed_fields (Http.body reply)) ->
            k = "success" \/ k = "message".

Definition errors_summarized
    (handler : World -> list (string * Js.value) -> M Http.reply) : Prop :=
  forall w body tr reply,
    Http.run (handler w body) = (tr, Ok reply) ->
    Http.code reply <> 200 ->
    summary_only reply.

(** A failed local analysis process makes the adapter reject. *)
Definition local_endpoint_rejects : Prop :=
  forall w (this : AdvancedAIService.t) analysisData st,
    Trace.process_failed w
      (spawn w (AdvancedAIService.pythonPath this)
         (AdvancedAIService.arguments this analysisData)) ->
    exists e,
      snd (AdvancedAIService.analyzeWithLocalEndpoint w this analysisData st)
      = Throw e.

End Stated.

(** ** Concrete worlds and requests *)

Module Example.
Import Eff.

Definition url : string :=
  "https://us-central1-demo.cloudfunctions.net/analyze_code".

Definition unset : string -> option string := fun _ => None.

Definition only (k v : string) : string -> option string :=
  fun k' => if String.eqb k' k then Some v else None.

Definition network_down : string -> Js.value -> fetch_outcome :=
  fun _ _ => NetworkError (mkError "TypeError" "fetch failed").

Definition internal_server_error : string -> Js.value -> fetch_outcome :=
  fun _ _ =>
    Responded (mkResponse 500 "Internal Server Error"
                 (Throw (mkError "SyntaxError" "Unexpected token < in JSON"))).

(** The analysis script prints part of a document and exits with 1. *)
Definition script_fails : string -> list Js.value -> process_outcome :=
  fun _ _ => mkProcess (Code 1) "{ partial" "Traceback (most recent call last)".

Definition no_json : string -> result Js.value :=
  fun _ => Throw (mkError "SyntaxError" "Unexpected end of JSON input").

Definition half : nat -> Q := fun _ => (1 # 2)%Q.

Definition low_then_high : nat -> Q :=
  fun n => match n with
           | O => (1 # 10)%Q
           | _ => (9 # 10)%Q
           end.

Definition new_year : nat -> string := fun _ => "2024-01-01T00:00:00.000Z".

Definition new_year_ms : nat -> Z := fun _ => 1704067200000.

(** Nothing is configured. *)
Definition bare : World :=
  mkWorld unset network_down script_fails no_json half new_year new_year_ms.

(** The cloud function is configured but the network is down. *)
Definition unreachable : World :=
  mkWorld (only "CLOUD_FUNCTION_URL" url) network_down script_fails no_json
    half new_year new_year_ms.

(** The cloud function is configured and answers with status 500. *)
Definition failing : World :=
  mkWorld (only "CLOUD_FUNCTION_URL" url) internal_server_error script_fails
    no_json half new_year new_year_ms.

(** Credentials are set; the analysis script fails. *)
Definition with_credentials : World :=
  mkWorld (only "GOOGLE_APPLICATION_CREDENTIALS" "/etc/analyzer/key.json")
    network_down script_fails no_json half new_year new_year_ms.

(** Successive random numbers differ. *)
Definition varying : World :=
  mkWorld unset network_down script_fails no_json low_then_high new_year
    new_year_ms.

(** The service before and after a successful [initialize()]. *)
Definition service : AdvancedAIService.t := AdvancedAIService.new "/srv/server".

Definition ready : AdvancedAIService.t :=
  AdvancedAIService.mk "python3"
    "/srv/server/../python/vertex_ai_endpoint_manager.py"
    "/srv/server/../python/cloud_function_analyzer.py" true None.

Definition legacy : AIAnalysisService.t := AIAnalysisService.new "/srv/server".

Definition analysisData : list (string * Js.value) :=
  Js.literal
    [("repoPath", Js.Str "/tmp/x"); ("commitHash", Js.Str "HEAD");
     ("analysisType", Js.Str "comprehensive");
     ("useCloudFunction", Js.Bool false)].

End Example.

(** ** The life cycle of [AdvancedAIService]: [initialize],
       [createEndpoint], [getAIStatus] *)

Module Lifecycle.
Import Eff.
Local Open Scope eff_scope.

(** The double quote character. *)
Definition dquote : string := String "034"%char EmptyString.

(** *** The regular expression [/Endpoint ID: ([a-zA-Z0-9-]+)/] *)

Definition between (lo hi c : ascii) : bool :=
  (nat_of_ascii lo <=? nat_of_ascii c)%nat
  && (nat_of_ascii c <=? nat_of_ascii hi)%nat.

(** The class [[a-zA-Z0-9-]]. *)
Definition id_char (c : ascii) : bool :=
  between "a" "z" c || between "A" "Z" c || between "0" "9" c
  || Ascii.eqb c "-".

(** The longest run matched by [[a-zA-Z0-9-]*] at the start of a string. *)
Fixpoint take_id (s : string) : string :=
  match s with
  | EmptyString => EmptyString
  | String c s' => if id_char c then String c (take_id s') else EmptyString
  end.

(** What follows the prefix [p], when [s] starts with it. *)
Fixpoint after_prefix (p s : string) : option string :=
  match p, s with
  | EmptyString, _ => Some s
  | String a p', String b s' =>
      if Ascii.eqb a b then after_prefix p' s' else None
  | String _ _, EmptyString => None
  end.

(** The first group of a match of the expression anchored at the start. *)
Definition match_here (s : string) : option string :=
  match after_prefix "Endpoint ID: " s with
  | Some rest =>
      match take_id rest with
      | EmptyString => None
      | id => Some id
      end
  | None => None
  end.

(** [output.match(/Endpoint ID: ([a-zA-Z0-9-]+)/)]: the first group of the
    leftmost match, [None] for [null]. *)
Fixpoint match_endpoint (output : string) : option string :=
  match match_here output with
  | Some id => Some id
  | None =>
      match output with
      | EmptyString => None
      | String _ rest => match_endpoint rest
      end
  end.

Section Service.
Variable w : World.

(** How the pipe cuts the output of a process into ['data'] events, and
    [String.prototype.trim]. *)
Variable chunks : string -> list string.
Variable trim : string -> string.

Definition dependency_arguments : list Js.value :=
  [Js.Str "-c";
   Js.Str ("import google.cloud.aiplatform; import google.cloud.pubsub_v1; print("
             ++ dquote ++ "Dependencies OK" ++ dquote ++ ")")].

(** [checkPythonDependencies()] *)
Definition checkPythonDependencies (this : AdvancedAIService.t) : M bool :=
  p <- run_process w (AdvancedAIService.pythonPath this)
         dependency_arguments;;
  if is_zero (code p) then
    log "✅ Python dependencies verified" [];;
    ret true
  else
    throw (mkError "Error" ("Python dependencies missing: " ++ stderr p)).

Definition connection_arguments (this : AdvancedAIService.t)
  : list Js.value :=
  [Js.Str (AdvancedAIService.endpointManagerPath this);
   Js.Str "--test-connection"].

(** [testVertexAIConnection()]: it resolves in both branches. *)
Definition testVertexAIConnection (this : AdvancedAIService.t) : M bool :=
  p <- run_process w (AdvancedAIService.pythonPath this)
         (connection_arguments this);;
  if is_zero (code p) then
    log "✅ Vertex AI connection verified" [];;
    ret true
  else
    warn "⚠️ Vertex AI connection test failed, using fallback mode" [];;
    ret false.

(** [this.isInitialized = true] *)
Definition initialized (this : AdvancedAIService.t) : AdvancedAIService.t :=
  AdvancedAIService.mk (AdvancedAIService.pythonPath this)
    (AdvancedAIService.endpointManagerPath this)
    (AdvancedAIService.cloudFunctionPath this) true
    (AdvancedAIService.endpointId this).

(** [this.endpointId = id] *)
Definition with_endpoint (id : string) (this : AdvancedAIService.t)
  : AdvancedAIService.t :=
  AdvancedAIService.mk (AdvancedAIService.pythonPath this)
    (AdvancedAIService.endpointManagerPath this)
    (AdvancedAIService.cloudFunctionPath this)
    (AdvancedAIService.isInitialized this) (Some id).

(** [initialize()]: the value returned and the service after the call. *)
Definition initialize (this : AdvancedAIService.t)
  : M (bool * AdvancedAIService.t) :=
  try_catch
    (log "🤖 Initializing Advanced AI Service..." [];;
     _ <- checkPythonDependencies this;;
     _ <- testVertexAIConnection this;;
     log "✅ Advanced AI Service initialized successfully" [];;
     ret (true, initialized this))
    (fun error =>
       Eff.error "❌ Failed to initialize AI Service:"
         [Js.Str (message error)];;
       ret (false, this)).

(** The ['data'] listener of [createEndpoint], once per chunk. *)
Fixpoint log_chunks (cs : list string) : M unit :=
  match cs with
  | [] => ret tt
  | c :: cs' =>
      log "Endpoint creation:" [Js.Str (trim c)];;
      log_chunks cs'
  end.

Definition endpoint_arguments (this : AdvancedAIService.t)
  : list Js.value :=
  [Js.Str (AdvancedAIService.endpointManagerPath this);
   Js.Str "--create-endpoint"].

(** [createEndpoint()]: the identifier resolved and the service after the
    call; a rejection leaves the service as it was. *)
Definition createEndpoint (this : AdvancedAIService.t)
  : M (string * AdvancedAIService.t) :=
  if negb (AdvancedAIService.isInitialized this) then
    throw (mkError "Error" "AI Service not initialized")
  else
    log "🚀 Creating Vertex AI endpoint..." [];;
    p <- run_process w (AdvancedAIService.pythonPath this)
           (endpoint_arguments this);;
    log_chunks (chunks (stdout p));;
    if is_zero (code p) then
      match match_endpoint (stdout p) with
      | Some id =>
          log "✅ Endpoint created successfully: ${this.endpointId}"
            [Js.Str id];;
          ret (id, with_endpoint id this)
      | None =>
          throw (mkError "Error" "Could not extract endpoint ID from output")
      end
    else
      throw (mkError "Error" ("Endpoint creation failed: " ++ stderr p)).

(** [getAIStatus()] *)
Definition getAIStatus (this : AdvancedAIService.t)
  : M (list (string * Js.value)) :=
  python_dependencies <-
    try_catch
      (ok <- checkPythonDependencies this;; ret (Js.Bool ok))
      (fun _ => ret (Js.Bool false));;
  last_health_check <- now_iso w;;
  ret (Js.literal
    [("initialized", Js.Bool (AdvancedAIService.isInitialized this));
     ("endpoint_id", match AdvancedAIService.endpointId this with
                     | Some id => Js.Str id
                     | None => Js.Null
                     end);
     ("vertex_ai_available",
      Js.Bool (Js.truthy (env_value w "GOOGLE_APPLICATION_CREDENTIALS")));
     ("cloud_function_available",
      Js.Bool (Js.truthy (env_value w "CLOUD_FUNCTION_URL")));
     ("python_dependencies", python_dependencies);
     ("service_health", Js.Str "operational");
     ("last_health_check", Js.Str last_health_check)]).

End Service.
End Lifecycle.

(** ** The other routes of the cloud-function enabled server *)

Module Routes.
Import Eff.
Local Open Scope eff_scope.

(** [await fetch(url, { method: 'GET' })], and [fetch] without a body: the
    request is recorded with the body [undefined]. *)
Definition get (w : World) (url : string) : M response :=
  fun st =>
    let st' :=
      mkSt (draws st) (ticks st) (trace st ++ [Fetch url Js.Undefined]) in
    match fetch w url Js.Undefined with
    | NetworkError e => (st', Throw e)
    | Responded r => (st', Ok r)
    end.

(** [s.replace(pattern, replacement)] for a pattern string: the first
    occurrence only. *)
Fixpoint replace_first (pattern replacement s : string) : string :=
  match Lifecycle.after_prefix pattern s with
  | Some rest => replacement ++ rest
  | None =>
      match s with
      | EmptyString => EmptyString
      | String c s' => String c (replace_first pattern replacement s')
      end
  end.

(** The address of the health check of a cloud function. *)
Definition healthUrl (cloudFunctionUrl : string) : string :=
  replace_first "/analyze_code" "/health_check" cloudFunctionUrl.

Section Server.
Variable w : World.
Variable chunks : string -> list string.
Variable trim : string -> string.

(** [app.get('/api/health', ...)] *)
Definition get_health (aiService : AdvancedAIService.t) : M Http.reply :=
  try_catch
    (aiStatus <- Lifecycle.getAIStatus w aiService;;
     timestamp <- now_iso w;;
     ret (Http.mkReply 200 (Js.Obj (Js.literal
       [("status", Js.Str "OK");
        ("timestamp", Js.Str timestamp);
        ("ai_service", Js.Obj aiStatus);
        ("vertex_ai_ready",
         Js.Bool (Js.truthy (env_value w "GOOGLE_APPLICATION_CREDENTIALS")));
        ("cloud_function_ready",
         Js.Bool (Js.truthy (env_value w "CLOUD_FUNCTION_URL")));
        ("cloud_function_url",
         Js.or_else (env_value w "CLOUD_FUNCTION_URL")
           (Js.Str
              "https://us-central1-your-project-id.cloudfunctions.net/analyze_code"));
        ("service_version", Js.Str "2.1.0")]))))
    (fun error =>
       timestamp <- now_iso w;;
       ret (Http.mkReply 500 (Js.Obj (Js.literal
         [("status", Js.Str "ERROR");
          ("message", Js.Str (message error));
          ("timestamp", Js.Str timestamp)])))).

(** [app.get('/api/ai/status', ...)] *)
Definition get_ai_status (aiService : AdvancedAIService.t) : M Http.reply :=
  try_catch
    (aiStatus <- Lifecycle.getAIStatus w aiService;;
     ret (Http.mkReply 200 (Js.Obj aiStatus)))
    (fun error =>
       ret (Http.mkReply 500 (Js.Obj (Js.literal
         [("error", Js.Str "Failed to get AI status");
          ("message", Js.Str (message error))])))).

(** [app.post('/api/ai/create-endpoint', ...)]: the reply and the service
    after the request. *)
Definition post_create_endpoint (aiService : AdvancedAIService.t)
  : M (Http.reply * AdvancedAIService.t) :=
  try_catch
    (log "🚀 Creating new Vertex AI endpoint..." [];;
     created <- Lifecycle.createEndpoint w chunks trim aiService;;
     timestamp <- now_iso w;;
     ret (Http.mkReply 200 (Js.Obj (Js.literal
            [("success", Js.Bool true);
             ("endpoint_id", Js.Str (fst created));
             ("message", Js.Str "Vertex AI endpoint created successfully");
             ("timestamp", Js.Str timestamp)])),
          snd created))
    (fun error =>
       error_with "Failed to create endpoint:" error;;
       ret (Http.mkReply 500 (Js.Obj (Js.literal
              [("success", Js.Bool false);
               ("error", Js.Str "Failed to create Vertex AI endpoint");
               ("message", Js.Str (message error))])),
            aiService)).

(** [app.get('/api/cloud-function/status', ...)] *)
Definition get_cloud_function_status : M Http.reply :=
  try_catch
    (let cloudFunctionUrl := env_value w "CLOUD_FUNCTION_URL" in
     if negb (Js.truthy cloudFunctionUrl) then
       ret (Http.mkReply 200 (Js.Obj (Js.literal
         [("available", Js.Bool false);
          ("message", Js.Str "Cloud Function URL not configured");
          ("url", Js.Null)])))
     else
       let healthUrl := healthUrl (env_string w "CLOUD_FUNCTION_URL") in
       response <- get w healthUrl;;
       last_check <- now_iso w;;
       ret (Http.mkReply 200 (Js.Obj (Js.literal
         [("available", Js.Bool (ok response));
          ("status", Js.int (status response));
          ("url", cloudFunctionUrl);
          ("health_check_url", Js.Str healthUrl);
          ("last_check", Js.Str last_check)]))))
    (fun error =>
       last_check <- now_iso w;;
       ret (Http.mkReply 200 (Js.Obj (Js.literal
         [("available", Js.Bool false);
          ("error", Js.Str (message error));
          ("url", Js.or_else (env_value w "CLOUD_FUNCTION_URL") Js.Null);
          ("last_check", Js.Str last_check)])))).

End Server.
End Routes.

(** ** The client of the dashboard (src/services/api.ts) *)

Module ApiService.
Import Eff.
Local Open Scope eff_scope.

(** [v?.length] for the values a JSON document holds: the number of items
    of an array, the length of a string, the property of an object. *)
Definition length_of (v : Js.value) : Js.value :=
  match v with
  | Js.Arr l => Js.int (Z.of_nat (List.length l))
  | Js.Str s => Js.int (Z.of_nat (String.length s))
  | Js.Obj fs => Js.field "length" fs
  | _ => Js.Undefined
  end.

(** The second argument of [request]. *)
Inductive options : Type :=
| NoOptions
| Post (body : option Js.value).

Section Client.
Variable w : World.

(** [import.meta.env.VITE_API_URL || 'http://localhost:3000/api'] *)
Definition API_BASE_URL : string :=
  if Js.truthy (env_value w "VITE_API_URL") then env_string w "VITE_API_URL"
  else "http://localhost:3000/api".

Definition CLOUD_FUNCTION_URL : string :=
  if Js.truthy (env_value w "VITE_CLOUD_FUNCTION_URL")
  then env_string w "VITE_CLOUD_FUNCTION_URL"
  else "https://us-central1-your-project-id.cloudfunctions.net/analyze_code".

(** [request(endpoint, options)] *)
Definition request (endpoint : string) (opts : options) : M Js.value :=
  response <-
    match opts with
    | Post (Some body) => post w (API_BASE_URL ++ endpoint) body
    | _ => Routes.get w (API_BASE_URL ++ endpoint)
    end;;
  if negb (ok response) then
    throw (mkError "Error" ("API request failed: " ++ statusText response))
  else lift (json response).

(** [cloudFunctionRequest(data)] *)
Definition cloudFunctionRequest (data : Js.value) : M Js.value :=
  response <- post w CLOUD_FUNCTION_URL data;;
  if negb (ok response) then
    throw (mkError "Error"
             ("Cloud Function request failed: " ++ statusText response))
  else lift (json response).

(** The body of the request to the cloud function. *)
Definition cloud_request (data : list (string * Js.value)) : Js.value :=
  Js.Obj (Js.literal
    [("repoPath", Js.field "repoPath" data);
     ("commitHash", Js.or_else (Js.field "commitHash" data) (Js.Str "HEAD"));
     ("analysisType",
      Js.or_else (Js.field "analysisType" data) (Js.Str "comprehensive"))]).

(** [{ ...data, useCloudFunction: false }] *)
Definition local_request (data : list (string * Js.value)) : Js.value :=
  Js.Obj (Js.literal
            (Js.spread (Js.Obj data)
               ++ [("useCloudFunction", Js.Bool false)])).

(** [startAnalysis(data)] *)
Definition startAnalysis (data : list (string * Js.value)) : M Js.value :=
  if Js.truthy (Js.field "useCloudFunction" data) then
    try_catch
      (log "🚀 Starting Cloud Function analysis..." [];;
       cloudResponse <- cloudFunctionRequest (cloud_request data);;
       status <- prop cloudResponse "status";;
       timestamp <- now_iso w;;
       issues <- prop cloudResponse "issues";;
       metadata <- prop cloudResponse "metadata";;
       r <- random w;;
       ret (Js.Obj (Js.literal
         [("success", Js.Bool (Js.strict_eq_str status "success"));
          ("message",
           Js.Str "Cloud Function analysis completed successfully");
          ("repoPath", Js.field "repoPath" data);
          ("commitHash", Js.field "commitHash" data);
          ("timestamp", Js.Str timestamp);
          ("issues", issues);
          ("metadata", metadata);
          ("results", Js.Obj (Js.literal
             [("qualityScore", Js.int (Js.random_int r 20 80));
              ("issuesFound", Js.or_else (length_of issues) (Js.int 0));
              ("filesAnalyzed",
               Js.or_else (Js.get_opt metadata "files_analyzed")
                 (Js.int 0))]))])))
      (fun error =>
         error_with
           "Cloud Function analysis failed, falling back to local API:"
           error;;
         request "/analyze" (Post (Some (local_request data))))
  else
    request "/analyze" (Post (Some (Js.Obj data))).

(** [testCloudFunction()] *)
Definition testCloudFunction : M bool :=
  try_catch
    (response <- Routes.get w (Routes.healthUrl CLOUD_FUNCTION_URL);;
     ret (ok response))
    (fun error =>
       emit (ConsoleError "Cloud Function health check failed:" error);;
       ret false).

End Client.
End ApiService.

(** ** The chart of the issues by type (src/components/IssuesChart.tsx) *)

Module IssuesChart.

(** [acc[k] || 0] for an accumulator of type [Record<string, number>]. *)
Fixpoint count_of (k : string) (acc : list (string * Z)) : Z :=
  match acc with
  | [] => 0
  | (k', n) :: acc' => if String.eqb k' k then n else count_of k acc'
  end.

(** [acc[k] = n] *)
Fixpoint set_count (k : string) (n : Z) (acc : list (string * Z))
  : list (string * Z) :=
  match acc with
  | [] => [(k, n)]
  | (k', n') :: acc' =>
      if String.eqb k' k then (k, n) :: acc'
      else (k', n') :: set_count k n acc'
  end.

(** [issues.reduce((acc, issue) => { acc[issue.type] = (acc[issue.type] ||
    0) + 1; return acc; }, {})] *)
Definition issuesByType (issues : list Issue.t) : list (string * Z) :=
  fold_left
    (fun acc issue =>
       set_count (Issue.type issue) (count_of (Issue.type issue) acc + 1) acc)
    issues [].

(** [data.datasets[0].data] *)
Definition data (issues : list Issue.t) : list Z :=
  [count_of "security" (issuesByType issues);
   count_of "quality" (issuesByType issues);
   count_of "performance" (issuesByType issues)].

(** The number of issues of a type. *)
Definition occurrences (k : string) (issues : list Issue.t) : Z :=
  Z.of_nat
    (List.length (filter (fun i => String.eqb (Issue.type i) k) issues)).

End IssuesChart.

(** ** Further vocabulary *)

Module Observed.
Import Eff.

(** The child processes of a trace. *)
Definition spawns (tr : list event) : list event := filter is_spawn tr.

(** An object whose property names are pairwise distinct, as every object
    of the language is. *)
Definition distinct_keys (fs : list (string * Js.value)) : Prop :=
  NoDup (map fst fs).

(** [pattern] occurs in [s]. *)
Fixpoint occurs (pattern s : string) : bool :=
  match Lifecycle.after_prefix pattern s with
  | Some _ => true
  | None =>
      match s with
      | EmptyString => false
      | String _ s' => occurs pattern s'
      end
  end.

(** Every character of a string is in the class [[a-zA-Z0-9-]]. *)
Fixpoint all_id_chars (s : string) : bool :=
  match s with
  | EmptyString => true
  | String c s' => Lifecycle.id_char c && all_id_chars s'
  end.

(** The character [c] does not occur in a string. *)
Fixpoint free_of (c : ascii) (s : string) : bool :=
  match s with
  | EmptyString => true
  | String c' s' => negb (Ascii.eqb c' c) && free_of c s'
  end.

(** A string does not start with a character of the class. *)
Definition ends_identifier (s : string) : bool :=
  match s with
  | EmptyString => true
  | String c _ => negb (Lifecycle.id_char c)
  end.

End Observed.

(** Further worlds. *)
Module More.
Import Eff.

Definition exits_zero (out : string)
  : string -> list Js.value -> process_outcome :=
  fun _ _ => mkProcess (Code 0) out "".

Definition parses_null : string -> result Js.value := fun _ => Ok Js.Null.

(** The analysis script exits with status 0 after printing [null]. *)
Definition prints_null : World :=
  mkWorld Example.unset Example.network_down (exits_zero "null") parses_null
    Example.half Example.new_year Example.new_year_ms.

(** The answer of a cloud function that found two issues. *)
Definition two_issues : Js.value :=
  Js.Obj
    [("status", Js.Str "success");
     ("issues",
      Js.Arr (map Issue.to_value AdvancedAIService.fallback_issues));
     ("metadata", Js.Obj [("files_analyzed", Js.int 12)])].

Definition cloud_answers (v : Js.value)
  : string -> Js.value -> fetch_outcome :=
  fun _ _ => Responded (mkResponse 200 "OK" (Ok v)).

(** The cloud function is configured, for the server and for the client,
    and answers. *)
Definition cloud_ok : World :=
  mkWorld (fun _ => Some Example.url) (cloud_answers two_issues)
    Example.script_fails Example.no_json Example.half Example.new_year
    Example.new_year_ms.

(** The cloud function answers with the JSON document [null]. *)
Definition cloud_null : World :=
  mkWorld (Example.only "CLOUD_FUNCTION_URL" Example.url)
    (cloud_answers Js.Null) Example.script_fails Example.no_json
    Example.half Example.new_year Example.new_year_ms.

(** The analysis script of the basic server prints a document. *)
Definition script_ok : World :=
  mkWorld (Example.only "GOOGLE_APPLICATION_CREDENTIALS" "/etc/key.json")
    Example.network_down (exits_zero "{}")
    (fun _ => Ok (Js.Obj [("success", Js.Bool true)])) Example.half
    Example.new_year Example.new_year_ms.

End More.

(** * Properties *)

(** ** Objects and serialization *)

Module JsFacts.
Import Js.

Lemma lookup_set_field k v fs k' :
  lookup k' (set_field k v fs)
  = if String.eqb k k' then Some v else lookup k' fs.
Proof.
  induction fs as [|[k0 v0] fs IH]; cbn.
  - reflexivity.
  - destruct (String.eqb k0 k) eqn:E0; cbn.
    + apply String.eqb_eq in E0. subst k0.
      destruct (String.eqb k k'); reflexivity.
    + rewrite IH. destruct (String.eqb k0 k') eqn:E1; [|reflexivity].
      apply String.eqb_eq in E1. subst k0.
      now rewrite String.eqb_sym, E0.
Qed.

Lemma literal_app l1 l2 :
  literal (l1 ++ l2)
  = fold_left (fun acc kv => set_field (fst kv) (snd kv) acc) l2 (literal l1).
Proof. unfold literal. apply fold_left_app. Qed.

Lemma fields_to_json_cons k v fs :
  fields_to_json ((k, v) :: fs)
  = match v with
    | Undefined => fields_to_json fs
    | _ => (k, to_json v) :: fields_to_json fs
    end.
Proof. destruct v; reflexivity. Qed.

Lemma exposed_fields_obj fs :
  exposed_fields (Obj fs) = map fst (fields_to_json fs).
Proof. reflexivity. Qed.

Lemma in_exposed_fields k fs :
  In k (exposed_fields (Obj fs))
  <-> exists v, In (k, v) fs /\ v <> Undefined.
Proof.
  rewrite exposed_fields_obj.
  induction fs as [|[k0 v0] fs IH].
  - cbn. split; [tauto | intros (v & [] & _)].
  - rewrite fields_to_json_cons. split.
    + intros H.
      assert (Hc : (v0 <> Undefined /\ k0 = k) \/ In k (map fst (fields_to_json fs))).
      { destruct v0; cbn in H; try (destruct H as [H|H]; [left; split; [discriminate|exact H] | right; exact H]).
        right; exact H. }
      destruct Hc as [[Hv Hk]|Hc].
      * subst. exists v0. split; [left; reflexivity | exact Hv].
      * apply IH in Hc. destruct Hc as (v & Hin & Hv).
        exists v. split; [right; exact Hin | exact Hv].
    + intros (v & [Heq|Hin] & Hv).
      * inversion Heq; subst. destruct v; try (left; reflexivity). congruence.
      * assert (In k (map fst (fields_to_json fs))) by (apply IH; eauto).
        destruct v0; try (right; assumption). assumption.
Qed.

Lemma lookup_in k fs v : lookup k fs = Some v -> In (k, v) fs.
Proof.
  induction fs as [|[k0 v0] fs IH]; cbn; [discriminate|].
  destruct (String.eqb k0 k) eqn:E.
  - apply String.eqb_eq in E. intros [= ->]. subst. now left.
  - intros H. right. auto.
Qed.

Lemma has_exposed k fs : has k fs -> In k (exposed_fields (Obj fs)).
Proof.
  intros (v & Hl & Hv). apply in_exposed_fields.
  exists v. split; [now apply lookup_in | exact Hv].
Qed.

Lemma has_set_field k v fs k' :
  has k' fs -> v <> Undefined -> has k' (set_field k v fs).
Proof.
  intros (x & Hl & Hx) Hv. unfold has. rewrite lookup_set_field.
  destruct (String.eqb k k'); eauto.
Qed.

Lemma has_set_field_same k v fs :
  v <> Undefined -> has k (set_field k v fs).
Proof.
  intros Hv. exists v. rewrite lookup_set_field, String.eqb_refl. auto.
Qed.

End JsFacts.

(** ** A program logic for handlers *)

Module Logic.
Import Eff.
Local Open Scope list_scope.

Section Rules.
Context {A : Type}.
Implicit Types Q : list event -> result A -> Prop.

Lemma spec_ret (a : A) Q : Q [] (Ok a) -> spec (ret a) Q.
Proof. intros H st. exists []. cbn. now rewrite app_nil_r. Qed.

Lemma spec_throw e Q : Q [] (Throw e) -> spec (@throw A e) Q.
Proof. intros H st. exists []. cbn. now rewrite app_nil_r. Qed.

Lemma spec_weaken (m : M A) Q Q' :
  spec m Q -> (forall s r, Q s r -> Q' s r) -> spec m Q'.
Proof.
  intros Hm HQ st. destruct (Hm st) as (s & Ht & H). exists s. auto.
Qed.

Lemma spec_bind {B} (m : M B) (k : B -> M A) (Q1 : list event -> result B -> Prop) Q :
  spec m Q1 ->
  (forall s1 b, Q1 s1 (Ok b) -> spec (k b) (fun s2 r => Q (s1 ++ s2) r)) ->
  (forall s1 e, Q1 s1 (Throw e) -> Q s1 (Throw e)) ->
  spec (bind m k) Q.
Proof.
  intros Hm Hk He st. destruct (Hm st) as (s1 & Ht & HQ).
  unfold bind. destruct (m st) as [st1 [b|e]]; cbn in *.
  - destruct (Hk s1 b HQ st1) as (s2 & Ht2 & HQ2).
    exists (s1 ++ s2). rewrite Ht2, Ht, app_assoc. auto.
  - exists s1. auto.
Qed.

Lemma spec_try_catch (m : M A) (h : Error -> M A) Q1 Q :
  spec m Q1 ->
  (forall s1 a, Q1 s1 (Ok a) -> Q s1 (Ok a)) ->
  (forall s1 e, Q1 s1 (Throw e) -> spec (h e) (fun s2 r => Q (s1 ++ s2) r)) ->
  spec (try_catch m h) Q.
Proof.
  intros Hm Hok Hh st. destruct (Hm st) as (s1 & Ht & HQ).
  unfold try_catch. destruct (m st) as [st1 [a|e]]; cbn in *.
  - exists s1. auto.
  - destruct (Hh s1 e HQ st1) as (s2 & Ht2 & HQ2).
    exists (s1 ++ s2). rewrite Ht2, Ht, app_assoc. auto.
Qed.

Lemma spec_emit ev (k : unit -> M A) Q :
  spec (k tt) (fun s r => Q (ev :: s) r) -> spec (bind (emit ev) k) Q.
Proof.
  intros Hk st. unfold bind, emit.
  destruct (Hk (mkSt (draws st) (ticks st) (trace st ++ [ev]))) as (s & Ht & H).
  exists (ev :: s). cbn in *. rewrite Ht, <- app_assoc. auto.
Qed.

Lemma spec_random w (k : QArith_base.Q -> M A) Q :
  (forall n, spec (k (Math_random w n)) Q) -> spec (bind (random w) k) Q.
Proof.
  intros Hk st. unfold bind, random.
  destruct (Hk (draws st) (mkSt (S (draws st)) (ticks st) (trace st)))
    as (s & Ht & H).
  exists s. auto.
Qed.

Lemma spec_now_iso w (k : string -> M A) Q :
  (forall t, spec (k t) Q) -> spec (bind (now_iso w) k) Q.
Proof.
  intros Hk st. unfold bind, now_iso.
  destruct (Hk (toISOString w (ticks st))
              (mkSt (draws st) (S (ticks st)) (trace st))) as (s & Ht & H).
  exists s. auto.
Qed.

Lemma spec_now_ms w (k : Z -> M A) Q :
  (forall t, spec (k t) Q) -> spec (bind (now_ms w) k) Q.
Proof.
  intros Hk st. unfold bind, now_ms.
  destruct (Hk (Date_now w (ticks st))
              (mkSt (draws st) (S (ticks st)) (trace st))) as (s & Ht & H).
  exists s. auto.
Qed.

Lemma spec_post w url body (k : response -> M A) Q :
  (forall r, fetch w url (Js.to_json body) = Responded r ->
             spec (k r) (fun s x => Q (Fetch url (Js.to_json body) :: s) x)) ->
  (forall e, fetch w url (Js.to_json body) = NetworkError e ->
             Q [Fetch url (Js.to_json body)] (Throw e)) ->
  spec (bind (post w url body) k) Q.
Proof.
  intros Hr He st. unfold bind, post.
  destruct (fetch w url (Js.to_json body)) as [e|r] eqn:E.
  - eexists. cbn. split; [reflexivity | auto].
  - destruct (Hr r eq_refl
                (mkSt (draws st) (ticks st)
                   (trace st ++ [Fetch url (Js.to_json body)])))
      as (s & Ht & H).
    exists (Fetch url (Js.to_json body) :: s).
    cbn in *. rewrite Ht, <- app_assoc. auto.
Qed.

Lemma spec_run_process w cmd args (k : process_outcome -> M A) Q :
  spec (k (spawn w cmd args)) (fun s r => Q (Spawn cmd args :: s) r) ->
  spec (bind (run_process w cmd args) k) Q.
Proof.
  intros Hk st. unfold bind, run_process.
  destruct (Hk (mkSt (draws st) (ticks st) (trace st ++ [Spawn cmd args])))
    as (s & Ht & H).
  exists (Spawn cmd args :: s). cbn in *. rewrite Ht, <- app_assoc. auto.
Qed.

Lemma spec_lift {B} (x : result B) (k : B -> M A) Q :
  match x with
  | Ok b => spec (k b) Q
  | Throw e => Q [] (Throw e)
  end ->
  spec (bind (lift x) k) Q.
Proof.
  intros H st. unfold bind, lift. destruct x as [b|e].
  - apply H.
  - exists []. cbn. now rewrite app_nil_r.
Qed.

Lemma spec_prop v key (k : Js.value -> M A) Q :
  (forall x, Js.get v key = Some x -> spec (k x) Q) ->
  (forall e, Js.get v key = None -> Q [] (Throw e)) ->
  spec (bind (prop v key) k) Q.
Proof.
  intros Hs Hn st. unfold bind, prop. destruct (Js.get v key) as [x|] eqn:E.
  - apply Hs. reflexivity.
  - exists []. cbn. rewrite app_nil_r. auto.
Qed.

End Rules.

(** Running a handler from a fresh request. *)
Lemma spec_run {A} (m : M A) Q :
  spec m Q -> Q (fst (Http.run m)) (snd (Http.run m)).
Proof.
  intros H. destruct (H init) as (s & Ht & HQ).
  unfold Http.run. cbn in *. now rewrite Ht.
Qed.

End Logic.

(** ** The services *)

Module ServiceFacts.
Import Eff Logic JsFacts.
Local Open Scope list_scope.

Create HintDb shape.
#[local] Hint Resolve has_set_field has_set_field_same : shape.

Ltac has_now :=
  eexists; split; [cbn; reflexivity | discriminate].

Lemma getFallbackAnalysis_spec w repoPath options :
  spec (AdvancedAIService.getFallbackAnalysis w repoPath options)
    (fun s r =>
       s = [Console "log" "📊 Using fallback analysis mode" []]
       /\ exists fs, r = Ok fs /\ Shape.fallback fs /\ Shape.common fs
            /\ Shape.categories fs
               = [(Js.Str "quality", Js.Str "medium");
                  (Js.Str "security", Js.Str "high")]).
Proof.
  unfold AdvancedAIService.getFallbackAnalysis, log.
  apply spec_emit, spec_now_iso; intros t.
  apply spec_random; intros n1. apply spec_random; intros n2.
  apply spec_ret. split; [reflexivity|].
  eexists. split; [reflexivity|].
  repeat split; try has_now.
Qed.


Lemma backend_attempted_app s1 s2 :
  Trace.backend_attempted (s1 ++ s2)
  = Trace.backend_attempted s1 || Trace.backend_attempted s2.
Proof. apply existsb_app. Qed.

Lemma fetches_app s1 s2 :
  Trace.fetches (s1 ++ s2) = Trace.fetches s1 ++ Trace.fetches s2.
Proof. apply filter_app. Qed.

Lemma enhanced_literal l x y :
  x <> Js.Undefined -> y <> Js.Undefined ->
  Shape.enhanced
    (Js.literal (l ++ [("enhanced_metadata", x); ("performance_metrics", y)])).
Proof.
  intros Hx Hy. rewrite literal_app. cbn [fold_left fst snd].
  split; auto with shape.
Qed.

Lemma enhanceAnalysisResult_spec w this result analysisData :
  spec (AdvancedAIService.enhanceAnalysisResult w this result analysisData)
    (fun s r => s = [] /\ forall fs, r = Ok fs -> Shape.enhanced fs).
Proof.
  unfold AdvancedAIService.enhanceAnalysisResult.
  apply spec_now_iso; intros t.
  apply spec_prop.
  - intros x _. apply spec_ret. split; [reflexivity|].
    intros fs [= <-]. apply enhanced_literal; discriminate.
  - intros e _. split; [reflexivity | discriminate].
Qed.

(** The local endpoint never rejects, makes no network call, and answers
    with an enhanced result or with the fallback analysis. *)
Lemma analyzeWithLocalEndpoint_spec w this analysisData :
  spec (AdvancedAIService.analyzeWithLocalEndpoint w this analysisData)
    (fun s r =>
       Trace.fetches s = [] /\ Trace.backend_attempted s = true
       /\ exists fs, r = Ok fs /\ (Shape.common fs \/ Shape.enhanced fs)).
Proof.
  unfold AdvancedAIService.analyzeWithLocalEndpoint.
  apply spec_run_process.
  destruct (is_zero _).
  - eapply spec_try_catch.
    + apply spec_lift.
      instantiate (1 := fun s r =>
        Trace.fetches s = [] /\ forall fs, r = Ok fs -> Shape.enhanced fs).
      destruct (JSON_parse w _) as [result|e].
      * unfold log. apply spec_emit.
        eapply spec_weaken; [apply enhanceAnalysisResult_spec|].
        cbn. intros s r [-> H]. auto.
      * split; [reflexivity | discriminate].
    + intros s1 fs [Hf H]. unfold Trace.fetches in *. cbn. rewrite Hf.
      repeat split. eauto.
    + intros s1 e [Hf _]. unfold error_with. apply spec_emit.
      eapply spec_weaken; [apply getFallbackAnalysis_spec|].
      intros s r (-> & fs & -> & _ & Hc & _).
      unfold Trace.fetches in *. cbn. rewrite filter_app, Hf.
      repeat split. eauto.
  - unfold error. apply spec_emit.
    eapply spec_weaken; [apply getFallbackAnalysis_spec|].
    cbn. intros s r (-> & fs & -> & _ & Hc & _). repeat split. eauto.
Qed.


Lemma analyzeWithCloudFunction_spec w this analysisData :
  spec (AdvancedAIService.analyzeWithCloudFunction w this analysisData)
    (fun s r =>
       match r with
       | Ok fs => Shape.enhanced fs /\ Trace.backend_attempted s = true
       | Throw _ => True
       end).
Proof.
  unfold AdvancedAIService.analyzeWithCloudFunction.
  destruct (negb (Js.truthy _)).
  - apply spec_throw. exact I.
  - eapply spec_try_catch with
      (Q1 := fun s r =>
         match r with
         | Ok fs => Shape.enhanced fs /\ Trace.backend_attempted s = true
         | Throw _ => True
         end).
    + apply spec_post; [|intros; exact I].
      intros r _. destruct (negb (ok r)).
      * apply spec_throw. exact I.
      * apply spec_lift. destruct (json r) as [result|e]; [|exact I].
        unfold log. apply spec_emit. apply spec_prop; [|intros; exact I].
        intros analysis _.
        eapply spec_weaken; [apply enhanceAnalysisResult_spec|].
        intros s [fs|e] [-> H]; [|exact I]. split; [auto | reflexivity].
    + auto.
    + intros s1 e _. unfold error_with. apply spec_emit, spec_throw.
      exact I.
Qed.

Lemma truthy_or_false a :
  Js.truthy (Js.or_else a (Js.Bool false)) = Js.truthy a.
Proof. unfold Js.or_else. destruct (Js.truthy a) eqn:E; auto. Qed.

(** [analyzeRepositoryWithAI] never rejects; it always takes a step of the
    chain, and without the cloud-function option it makes no network
    call. *)
Lemma analyzeRepositoryWithAI_spec w this repoPath options :
  spec (AdvancedAIService.analyzeRepositoryWithAI w this repoPath options)
    (fun s r =>
       Trace.backend_attempted s = true
       /\ (Js.truthy (Js.field "useCloudFunction" options) = false ->
           Trace.fetches s = [])
       /\ exists fs, r = Ok fs /\ (Shape.common fs \/ Shape.enhanced fs)).
Proof.
  unfold AdvancedAIService.analyzeRepositoryWithAI.
  destruct (negb _).
  - unfold warn. apply spec_emit.
    eapply spec_weaken; [apply getFallbackAnalysis_spec|].
    intros s r (-> & fs & -> & _ & Hc & _). repeat split. eauto.
  - eapply spec_try_catch with
      (Q1 := fun s r =>
         (Js.truthy (Js.field "useCloudFunction" options) = false ->
          Trace.fetches s = [])
         /\ match r with
            | Ok fs => Trace.backend_attempted s = true
                       /\ (Shape.common fs \/ Shape.enhanced fs)
            | Throw _ => Js.truthy (Js.field "useCloudFunction" options) = true
            end).
    + unfold log. apply spec_emit.
      cbn [Js.literal fold_left fst snd Js.set_field String.eqb Ascii.eqb
             Bool.eqb Js.field Js.lookup].
      rewrite truthy_or_false.
      destruct (Js.truthy (Js.field "useCloudFunction" options)) eqn:E.
      * eapply spec_weaken; [apply analyzeWithCloudFunction_spec|].
        intros s [fs|e] H; (split; [discriminate|]); [|reflexivity].
        destruct H as [H1 H2]. split; [|auto].
        unfold Trace.backend_attempted in *. cbn. exact H2.
      * eapply spec_weaken; [apply analyzeWithLocalEndpoint_spec|].
        intros s r (Hf & Ha & fs & -> & H).
        split; [intros _; exact Hf|]. split; [|exact H].
        unfold Trace.backend_attempted in *. cbn. exact Ha.
    + intros s1 fs (Hf & Ha & H). eauto.
    + intros s1 e (Hf & Hcf). unfold error. apply spec_emit.
      eapply spec_weaken; [apply getFallbackAnalysis_spec|].
      intros s r (-> & fs & -> & _ & Hc & _).
      split; [|split; [|eauto]].
      * rewrite backend_attempted_app. apply orb_true_r.
      * intros Hn. congruence.
Qed.

End ServiceFacts.

(** ** The cloud-function enabled server *)

Module EnhancedFacts.
Import Eff Logic JsFacts ServiceFacts Contract.
Local Open Scope list_scope.

Section Analyze.
Variable w : World.
Variable aiService : AdvancedAIService.t.

Lemma standard_analysis_spec repoPath commitHash :
  spec (EnhancedServer.standard_analysis w repoPath commitHash)
    (fun s r =>
       s = [Console "log" "📊 Using standard analysis..." [];
            SetTimeout 2000]
       /\ exists fs, r = Ok fs /\ Shape.common fs
            /\ Js.lookup "ai_powered" fs = Some (Js.Bool false)).
Proof.
  unfold EnhancedServer.standard_analysis, log.
  apply spec_emit, spec_emit, spec_now_iso; intros t.
  apply spec_random; intros n1. apply spec_random; intros n2.
  apply spec_ret. split; [reflexivity|].
  eexists. split; [reflexivity|]. repeat split; has_now.
Qed.

Lemma or_else_defined a b :
  b <> Js.Undefined -> Js.or_else a b <> Js.Undefined.
Proof.
  unfold Js.or_else. destruct (Js.truthy a) eqn:E; [|auto].
  intros _ ->. discriminate.
Qed.

Lemma truthy_defined a : Js.truthy a = true -> a <> Js.Undefined.
Proof. intros H ->. discriminate. Qed.

(** The cloud-function call: it starts with the network call; it cannot
    succeed when the remote backend fails. *)
Lemma cloud_function_analysis_spec repoPath commitHash analysisType :
  spec (EnhancedServer.cloud_function_analysis w repoPath commitHash
          analysisType)
    (fun s r =>
       Trace.backend_attempted s = true
       /\ match r with
          | Ok fs =>
              Shape.common fs
              /\ ~ Trace.remote_failed
                     (remote_outcome w repoPath commitHash analysisType)
          | Throw _ => True
          end).
Proof.
  unfold EnhancedServer.cloud_function_analysis.
  apply spec_post; [|intros; split; [reflexivity | exact I]].
  intros r Hr. unfold remote_outcome. rewrite Hr. cbn [Trace.remote_failed].
  destruct (ok r); cbn [negb].
  - apply spec_lift. destruct (json r) as [cloudResult|e];
      [|split; [reflexivity | exact I]].
    apply spec_prop; [|intros; split; [reflexivity | exact I]].
    intros status _. apply spec_now_iso; intros t.
    apply spec_prop; [|intros; split; [reflexivity | exact I]].
    intros issues _.
    apply spec_prop; [|intros; split; [reflexivity | exact I]].
    intros metadata _.
    apply spec_prop; [|intros; split; [reflexivity | exact I]].
    intros analysis _.
    eapply spec_bind with
      (Q1 := fun s x => s = [] /\ exists v, x = Ok v /\ v <> Js.Undefined).
    + destruct (Js.truthy analysis) eqn:E.
      * apply spec_ret. split; [reflexivity|].
        exists analysis. split; [reflexivity | now apply truthy_defined].
      * apply spec_random; intros n. apply spec_ret.
        split; [reflexivity|]. eexists. split; [reflexivity | discriminate].
    + intros s1 v (-> & v' & [= <-] & Hv). apply spec_ret.
      split; [reflexivity|]. split; [|discriminate].
      repeat split; try has_now.
      eexists. split; [cbn; reflexivity | exact Hv].
    + intros s1 e (_ & v & [=] & _).
  - apply spec_throw. split; [reflexivity | exact I].
Qed.


Lemma local_options_no_cloud commitHash analysisType :
  Js.truthy (Js.field "useCloudFunction"
               (EnhancedServer.local_options commitHash analysisType))
  = false.
Proof. reflexivity. Qed.

Lemma select_backend_spec repoPath commitHash analysisType useAI
    useCloudFunction :
  spec (EnhancedServer.select_backend w aiService repoPath commitHash
          analysisType useAI useCloudFunction)
    (selected w repoPath commitHash analysisType useAI useCloudFunction).
Proof.
  unfold EnhancedServer.select_backend, selected, next_path.
  destruct (EnhancedServer.cloud_function_selected w useCloudFunction).
  - unfold log. apply spec_emit.
    eapply spec_try_catch; [apply cloud_function_analysis_spec | |].
    + intros s1 fs (Ha & Hc & Hnf).
      split; [exact Ha|]. split; [eauto|].
      split; [discriminate|]. intros _ Hf. contradiction.
    + intros s1 e (Ha & _). unfold error_with. apply spec_emit.
      eapply spec_bind; [apply analyzeRepositoryWithAI_spec | |].
      * intros s2 fs (_ & _ & fs' & [= <-] & Hs). apply spec_ret.
        split; [|split; [|split; [discriminate|]]].
        -- unfold Trace.backend_attempted in *. cbn.
           rewrite existsb_app, Ha. reflexivity.
        -- eexists. split; [reflexivity|].
           destruct Hs as [(H1 & H2 & H3 & H4)|(H1 & H2)]; [left|right];
             repeat split; apply has_set_field; auto; discriminate.
        -- intros _ _. split.
           ++ unfold Trace.was_logged. cbn. rewrite existsb_app. cbn.
              apply orb_true_r.
           ++ eexists. split; [reflexivity|].
              now rewrite lookup_set_field.
      * intros s2 e' (_ & _ & fs' & [=] & _).
  - destruct (Js.truthy useAI).
    + unfold log. apply spec_emit.
      eapply spec_weaken; [apply analyzeRepositoryWithAI_spec|].
      intros s r (Ha & Hf & Hs).
      split; [|split; [exact Hs|split; [|discriminate]]].
      * unfold Trace.backend_attempted in *. cbn. exact Ha.
      * intros _. split; [|reflexivity].
        unfold Trace.fetches in *. cbn. apply Hf, local_options_no_cloud.
    + eapply spec_weaken; [apply standard_analysis_spec|].
      intros s r (-> & fs & -> & Hc & _).
      split; [reflexivity|]. split; [eauto|]. split; [|discriminate].
      intros _. split; reflexivity.
Qed.

Lemma post_analyze_spec body :
  spec (EnhancedServer.post_analyze w aiService body) (analyzed w body).
Proof.
  unfold EnhancedServer.post_analyze, analyzed, next_path, log.
  apply spec_emit, spec_emit.
  eapply spec_try_catch with
    (Q1 := fun s r =>
       exists fs md,
         selected w (Body.repoPath body) (Body.commitHash body)
           (Body.analysisType body) (Body.useAI body)
           (Body.useCloudFunction body) s (Ok fs)
         /\ r = Ok (Http.mkReply 200
                      (Js.Obj (Js.set_field "request_metadata" (Js.Obj md)
                                 fs)))).
  - eapply spec_bind; [apply select_backend_spec | |].
    + intros s1 fs H. apply spec_now_ms; intros t. apply spec_ret.
      rewrite app_nil_r. eauto.
    + intros s1 e (_ & (fs & [=] & _) & _).
  - intros s1 reply (fs & md & (Ha & (fs' & [= <-] & Hs) & Hn & Hc) & [= ->]).
    split.
    + unfold Trace.backend_attempted in *. cbn. exact Ha.
    + eexists. split; [reflexivity|].
      split; [apply has_set_field_same; discriminate|].
      split.
      { destruct Hs as [(H1 & H2 & H3 & H4)|(H1 & H2)]; [left|right];
          repeat split; apply has_set_field; auto; discriminate. }
      split.
      * intros E. destruct (Hn E) as [Hf Hl]. split.
        -- unfold Trace.fetches in *. cbn. exact Hf.
        -- unfold Trace.was_logged, next_path in *. cbn.
           destruct (Js.truthy (Body.useAI body)); cbn; exact Hl.
      * intros E F. destruct (Hc E F) as (Hl & fs' & [= <-] & Hm). split.
        -- unfold Trace.was_logged in *. cbn. exact Hl.
        -- rewrite lookup_set_field. exact Hm.
  - intros s1 e (fs & md & _ & [=]).
Qed.

End Analyze.
End EnhancedFacts.

(** ** Sorting the issues *)

Module IssueFacts.
Import IssueList.

Lemma Qle_bool_diff (x y : Q) : Qle_bool (x - y) 0 = true <-> (x <= y)%Q.
Proof.
  rewrite Qle_bool_iff. split; intros H;
    apply Qle_minus_iff; apply Qle_minus_iff in H.
  - setoid_replace (y + - x)%Q with (0 + - (x - y))%Q by ring. exact H.
  - setoid_replace (0 + - (x - y))%Q with (y + - x)%Q by ring. exact H.
Qed.

Lemma comparefn_prioritized a b pa pb :
  Issue.remediation_priority a = Some pa ->
  Issue.remediation_priority b = Some pb ->
  positive (comparefn a b)
  = if pa =? pb
    then negb (Qle_bool (Issue.confidence_or_0 b - Issue.confidence_or_0 a) 0)
    else negb (Qle_bool (inject_Z pa - inject_Z pb) 0).
Proof.
  intros Ha Hb. unfold comparefn, differ, Issue.priority_number.
  rewrite Ha, Hb. destruct (pa =? pb); reflexivity.
Qed.

Lemma kept_before a b :
  prioritized a -> prioritized b ->
  positive (comparefn a b) = false -> before a b.
Proof.
  unfold prioritized, before. intros Ha Hb.
  destruct (Issue.remediation_priority a) as [pa|] eqn:Ea; [|congruence].
  destruct (Issue.remediation_priority b) as [pb|] eqn:Eb; [|congruence].
  rewrite (comparefn_prioritized a b pa pb Ea Eb).
  destruct (pa =? pb) eqn:E; intros H; apply negb_false_iff in H;
    apply Qle_bool_diff in H.
  - apply Z.eqb_eq in E. auto.
  - apply Z.eqb_neq in E. rewrite <- Zle_Qle in H. left. lia.
Qed.

Lemma moved_after a b :
  prioritized a -> prioritized b ->
  positive (comparefn a b) = true -> before b a.
Proof.
  unfold prioritized, before. intros Ha Hb.
  destruct (Issue.remediation_priority a) as [pa|] eqn:Ea; [|congruence].
  destruct (Issue.remediation_priority b) as [pb|] eqn:Eb; [|congruence].
  rewrite (comparefn_prioritized a b pa pb Ea Eb).
  destruct (pa =? pb) eqn:E; intros H; apply negb_true_iff in H.
  - apply Z.eqb_eq in E. right. split; [auto|].
    apply Qlt_le_weak, Qnot_le_lt. intros C.
    apply Qle_bool_diff in C. congruence.
  - left. apply Z.eqb_neq in E.
    assert (~ pa <= pb); [|lia].
    intros C. rewrite Zle_Qle in C. apply Qle_bool_diff in C. congruence.
Qed.

Lemma before_trans a b c : before a b -> before b c -> before a c.
Proof.
  unfold before.
  destruct (Issue.remediation_priority a) as [pa|]; [|tauto].
  destruct (Issue.remediation_priority b) as [pb|]; [|tauto].
  destruct (Issue.remediation_priority c) as [pc|]; [|tauto].
  intros [H1|[H1 C1]] [H2|[H2 C2]]; try (left; lia).
  right. split; [lia|]. eapply Qle_trans; eauto.
Qed.

Lemma insert_perm x l : Permutation (x :: l) (insert comparefn x l).
Proof.
  induction l as [|y l IH]; cbn; [reflexivity|].
  destruct (positive (comparefn x y)); [|reflexivity].
  rewrite perm_swap. now apply perm_skip.
Qed.

Lemma sort_perm l : Permutation l (sort comparefn l).
Proof.
  induction l as [|x l IH]; cbn; [constructor|].
  rewrite <- insert_perm. now apply perm_skip.
Qed.

Lemma insert_sorted x l :
  prioritized x -> Forall prioritized l ->
  StronglySorted before l -> StronglySorted before (insert comparefn x l).
Proof.
  intros Hx Hl Hs. induction Hs as [|y l Hs IH Hy]; cbn.
  - repeat constructor.
  - inversion Hl as [|? ? Py Pl]; subst.
    destruct (positive (comparefn x y)) eqn:E.
    + constructor; [auto|].
      apply (Permutation_Forall (insert_perm x l)).
      constructor; [|exact Hy]. now apply moved_after.
    + assert (Hxy : before x y) by now apply kept_before.
      constructor; [now constructor|].
      constructor; [exact Hxy|].
      eapply Forall_impl; [|exact Hy]. intros z. now apply before_trans.
Qed.

Lemma sort_prioritized l :
  Forall prioritized l -> Forall prioritized (sort comparefn l).
Proof. intros H. exact (Permutation_Forall (sort_perm l) H). Qed.

(** The sort orders every list of prioritized issues. *)
Lemma sort_sorted l :
  Forall prioritized l -> StronglySorted before (sort comparefn l).
Proof.
  induction 1 as [|x l Hx Hl IH]; cbn; [constructor|].
  apply insert_sorted; auto. now apply sort_prioritized.
Qed.

Lemma filter_by_prioritized x k l :
  Forall prioritized l -> Forall prioritized (filter_by x k l).
Proof.
  unfold filter_by. intros H. destruct (Js.truthy x); [|exact H].
  apply Forall_forall. intros i Hi. apply filter_In in Hi.
  rewrite Forall_forall in H. now apply H.
Qed.

Lemma filter_flag_prioritized x k l :
  Forall prioritized l -> Forall prioritized (filter_flag x k l).
Proof.
  unfold filter_flag. intros H. destruct (Js.strict_eq_str x "true"); [|exact H].
  apply Forall_forall. intros i Hi. apply filter_In in Hi.
  rewrite Forall_forall in H. now apply H.
Qed.

End IssueFacts.

(** * The endpoints *)

Import Eff.

(** Every run of [POST /api/analyze] on the cloud-function enabled server
    resolves with a reply. *)
Lemma post_analyze_run w aiService body :
  exists tr fs,
    Http.run (EnhancedServer.post_analyze w aiService body)
    = (tr, Ok (Http.mkReply 200 (Js.Obj fs)))
    /\ Contract.analyzed w body tr (Ok (Http.mkReply 200 (Js.Obj fs))).
Proof.
  pose proof (Logic.spec_run _ _
                (EnhancedFacts.post_analyze_spec w aiService body)) as H.
  destruct (Http.run (EnhancedServer.post_analyze w aiService body))
    as [tr r].
  cbn [fst snd] in H. pose proof H as (_ & fs & -> & _).
  exists tr, fs. split; [reflexivity | exact H].
Qed.










(** The legacy adapter resolves with the parsed output of a process that
    exits with status 0, and rejects in every other case. *)
Lemma analyzeWithAI_spec w this repoPath options :
  spec (AIAnalysisService.analyzeWithAI w this repoPath options)
    (fun s r =>
       let p := spawn w (AIAnalysisService.pythonPath this)
                  (AIAnalysisService.arguments this repoPath) in
       match r with
       | Ok v => is_zero (code p) = true /\ JSON_parse w (stdout p) = Ok v
       | Throw e =>
           Trace.process_failed w p
           /\ (e = mkError "Error" "Invalid AI analysis output"
               \/ e = mkError "Error"
                        ("AI analysis process exited with code "
                           ++ string_of_code (code p)))
       end).
Proof.
  unfold AIAnalysisService.analyzeWithAI, log.
  apply Logic.spec_emit, Logic.spec_run_process.
  set (p := spawn w _ _). unfold Trace.process_failed.
  destruct (is_zero (code p)) eqn:Hz.
  - eapply Logic.spec_try_catch with
      (Q1 := fun s r =>
               match r with
               | Ok v => JSON_parse w (stdout p) = Ok v
               | Throw e => JSON_parse w (stdout p) = Throw e
               end).
    + apply Logic.spec_lift. destruct (JSON_parse w (stdout p)) as [v|e].
      * apply Logic.spec_emit, Logic.spec_ret. reflexivity.
      * reflexivity.
    + intros s1 v H. auto.
    + intros s1 e H. unfold error_with.
      apply Logic.spec_emit, Logic.spec_throw. cbn zeta. eauto.
  - unfold error. apply Logic.spec_emit, Logic.spec_throw. cbn zeta. auto.
Qed.

(** The basic server answers every request: with status 200, or from its
    catch branch with status 500 and the message of the caught error. *)
Lemma basic_post_analyze_spec w aiService body :
  spec (BasicServer.post_analyze w aiService body)
    (fun s r =>
       exists reply,
         r = Ok reply
         /\ (Http.code reply = 200
             \/ (Http.code reply = 500
                 /\ exists e fs,
                     In (ConsoleError "Analysis failed:" e) s
                     /\ Http.body reply = Js.Obj fs
                     /\ Contract.error_reply e fs))).
Proof.
  unfold BasicServer.post_analyze, log.
  apply Logic.spec_emit.
  eapply Logic.spec_try_catch with
    (Q1 := fun s r =>
             match r with
             | Ok reply => Http.code reply = 200
             | Throw _ => True
             end).
  - eapply Logic.spec_bind with
      (Q1 := fun (s : list event) (r : result Js.value) => True).
    + destruct (_ && _).
      * apply Logic.spec_emit.
        eapply Logic.spec_weaken; [apply analyzeWithAI_spec | auto].
      * apply Logic.spec_emit, Logic.spec_emit.
        apply Logic.spec_now_iso; intros t.
        do 3 (apply Logic.spec_random; intros ?).
        apply Logic.spec_ret. exact I.
    + intros s1 b _. apply Logic.spec_ret. reflexivity.
    + intros; exact I.
  - intros s1 reply H. exists reply. auto.
  - intros s1 e _. unfold error_with. apply Logic.spec_emit.
    apply Logic.spec_now_iso; intros t. apply Logic.spec_ret.
    eexists. split; [reflexivity|]. right. split; [reflexivity|].
    exists e. eexists. split; [|split; [reflexivity|]].
    + apply in_cons, in_or_app. right. now left.
    + repeat split.
Qed.



(** On a failed process the local endpoint of [AdvancedAIService] answers
    with the fallback analysis. *)
Lemma analyzeWithLocalEndpoint_failure w this analysisData :
  Trace.process_failed w
    (spawn w (AdvancedAIService.pythonPath this)
       (AdvancedAIService.arguments this analysisData)) ->
  spec (AdvancedAIService.analyzeWithLocalEndpoint w this analysisData)
    (fun s r => exists fs, r = Ok fs /\ Shape.fallback fs).
Proof.
  intros Hfail. unfold AdvancedAIService.analyzeWithLocalEndpoint.
  apply Logic.spec_run_process.
  set (p := spawn w _ _) in *. unfold Trace.process_failed in Hfail.
  destruct (is_zero (code p)) eqn:Hz.
  - destruct Hfail as [Hc|[e He]]; [discriminate|].
    rewrite He.
    eapply Logic.spec_try_catch with (Q1 := fun s r => r = Throw e).
    + apply Logic.spec_lift. reflexivity.
    + intros s1 a [=].
    + intros s1 e' _. unfold error_with. apply Logic.spec_emit.
      eapply Logic.spec_weaken;
        [apply ServiceFacts.getFallbackAnalysis_spec|].
      intros s r (_ & fs & -> & Hf & _). eauto.
  - unfold error. apply Logic.spec_emit.
    eapply Logic.spec_weaken; [apply ServiceFacts.getFallbackAnalysis_spec|].
    intros s r (_ & fs & -> & Hf & _). eauto.
Qed.




Lemma enhanced_issues_prioritized :
  Forall IssueList.prioritized EnhancedServer.issues.
Proof. repeat constructor; discriminate. Qed.

Lemma advanced_issues_prioritized :
  Forall IssueList.prioritized AdvancedServer.issues.
Proof. repeat constructor; discriminate. Qed.

(** C7: for every query the issues of [GET /api/issues] are those that
    pass the filters, in an order where an issue stands before another
    only if its [remediation_priority] is smaller, or equal with a
    [confidence] that is not smaller; on both servers that sort. *)
Theorem issues_are_sorted (query : list (string * Js.value)) :
  (StronglySorted IssueList.before (EnhancedServer.filteredIssues query)
   /\ Permutation (EnhancedServer.matching query)
        (EnhancedServer.filteredIssues query)
   /\ Js.get_opt (Http.body (EnhancedServer.get_issues query)) "issues"
      = Js.Arr (map Issue.to_value (EnhancedServer.filteredIssues query)))
  /\ (StronglySorted IssueList.before (AdvancedServer.filteredIssues query)
      /\ Permutation (AdvancedServer.matching query)
           (AdvancedServer.filteredIssues query)
      /\ Js.get_opt (Http.body (AdvancedServer.get_issues query)) "issues"
         = Js.Arr (map Issue.to_value (AdvancedServer.filteredIssues query))).
Proof.
  split; (split; [|split; [apply IssueFacts.sort_perm | reflexivity]]);
    apply IssueFacts.sort_sorted.
  - unfold EnhancedServer.matching.
    auto using IssueFacts.filter_flag_prioritized,
      IssueFacts.filter_by_prioritized, enhanced_issues_prioritized.
  - unfold AdvancedServer.matching.
    auto using IssueFacts.filter_flag_prioritized,
      IssueFacts.filter_by_prioritized, advanced_issues_prioritized.
Qed.

(** C8: two consecutive calls of [getFallbackAnalysis] with the same
    arguments resolve with issue lists of the same types and severities in
    the same order, quality/medium then security/high, whatever the clock
    and the random numbers; the scores of the two results can differ. *)
Theorem fallback_categories_are_stable :
  (forall (w : World) (repoPath : Js.value)
          (options : list (string * Js.value)) (st : St),
      exists first second,
        snd (AdvancedAIService.getFallbackAnalysis_twice w repoPath options
               st)
        = Ok (first, second)
        /\ Shape.categories first = Shape.categories second
        /\ Shape.categories first
           = [(Js.Str "quality", Js.Str "medium");
              (Js.Str "security", Js.Str "high")])
  /\ (exists first second,
        snd (AdvancedAIService.getFallbackAnalysis_twice Example.varying
               (Js.Str "/tmp/x") [] init)
        = Ok (first, second)
        /\ Shape.overall_score first = Js.int 77
        /\ Shape.overall_score second = Js.int 93).
Proof.
  split.
  - intros w repoPath options st.
    assert (H : spec (AdvancedAIService.getFallbackAnalysis_twice w repoPath
                        options)
                  (fun _ r =>
                     exists first second,
                       r = Ok (first, second)
                       /\ Shape.categories first
                          = [(Js.Str "quality", Js.Str "medium");
                             (Js.Str "security", Js.Str "high")]
                       /\ Shape.categories second
                          = [(Js.Str "quality", Js.Str "medium");
                             (Js.Str "security", Js.Str "high")])).
    { unfold AdvancedAIService.getFallbackAnalysis_twice.
      eapply Logic.spec_bind;
        [apply ServiceFacts.getFallbackAnalysis_spec | |].
      - intros s1 first (_ & fs & [= <-] & _ & _ & H1).
        eapply Logic.spec_bind;
          [apply ServiceFacts.getFallbackAnalysis_spec | |].
        + intros s2 second (_ & fs' & [= <-] & _ & _ & H2).
          apply Logic.spec_ret. eauto.
        + intros s2 e (_ & fs' & [=] & _).
      - intros s1 e (_ & fs & [=] & _). }
    destruct (H st) as (s & _ & first & second & Hr & H1 & H2).
    exists first, second. rewrite H1, H2. auto.
  - eexists. eexists. split; [vm_compute; reflexivity|].
    split; reflexivity.
Qed.

(** [Math.floor(r * k) + base] stays in [[base, base + k)] for [r] in
    [[0, 1)]. *)
Lemma random_int_range (r : Q) (k base : Z) :
  (0 <= r)%Q -> (r < 1)%Q -> 0 < k ->
  base <= Js.random_int r k base < base + k.
Proof.
  intros H0 H1 Hk. unfold Js.random_int.
  assert (Hk' : (inject_Z 0 < inject_Z k)%Q) by (rewrite <- Zlt_Qlt; exact Hk).
  assert (Hlo : 0 <= Qfloor (r * inject_Z k)).
  { change 0 with (Qfloor 0). apply Qfloor_resp_le.
    apply Qmult_le_0_compat; [exact H0 | now apply Qlt_le_weak]. }
  assert (Hhi : Qfloor (r * inject_Z k) < k).
  { rewrite Zlt_Qlt. eapply Qle_lt_trans; [apply Qfloor_le|].
    apply Qlt_le_trans with (1 * inject_Z k)%Q.
    - apply Qmult_lt_compat_r; assumption.
    - rewrite Qmult_1_l. apply Qle_refl. }
  lia.
Qed.



(** C10: when no issue passes the filters of [GET /api/issues], the reply
    still has status 200 with [issues: []] and [total_issues: 0], and
    [avg_confidence] is the quotient of zero by zero: not a number, which
    the serialized body shows as [null]. *)
Theorem no_match_average_is_not_a_number (query : list (string * Js.value)) :
  EnhancedServer.matching query = [] ->
  let reply := EnhancedServer.get_issues query in
  let metadata := Js.get_opt (Http.body reply) "metadata" in
  Http.code reply = 200
  /\ Js.get_opt (Http.body reply) "issues" = Js.Arr []
  /\ Js.get_opt metadata "total_issues" = Js.int 0
  /\ Js.get_opt metadata "avg_confidence" = Js.Num Js.NaN
  /\ Js.get_opt (Http.sent reply) "issues" = Js.Arr []
  /\ Js.get_opt (Js.get_opt (Http.sent reply) "metadata") "avg_confidence"
     = Js.Null.
Proof.
  intros H. unfold EnhancedServer.get_issues, EnhancedServer.filteredIssues.
  rewrite H. cbn. repeat split.
Qed.

Lemma no_match_average_is_not_a_number_witness :
  EnhancedServer.matching [("severity", Js.Str "low")] = []
  /\ Js.get_opt
       (Js.get_opt
          (Http.body (EnhancedServer.get_issues [("severity", Js.Str "low")]))
          "metadata")
       "avg_confidence"
     = Js.Num Js.NaN.
Proof.
  split; [reflexivity|].
  apply (no_match_average_is_not_a_number [("severity", Js.Str "low")]).
  reflexivity.
Defined.

(** The advanced server computes the same average. *)
Lemma advanced_no_match_average (query : list (string * Js.value)) :
  AdvancedServer.matching query = [] ->
  Js.get_opt
    (Js.get_opt (Http.body (AdvancedServer.get_issues query)) "metadata")
    "avg_confidence"
  = Js.Num Js.NaN.
Proof.
  intros H. unfold AdvancedServer.get_issues, AdvancedServer.filteredIssues.
  rewrite H. reflexivity.
Qed.

(** * Further properties of the services and of the routes *)

Module MoreFacts.
Import Logic JsFacts.
Local Open Scope list_scope.

Lemma spec_get {A} w url (k : response -> M A) Q :
  (forall r, fetch w url Js.Undefined = Responded r ->
             spec (k r) (fun s x => Q (Fetch url Js.Undefined :: s) x)) ->
  (forall e, fetch w url Js.Undefined = NetworkError e ->
             Q [Fetch url Js.Undefined] (Throw e)) ->
  spec (bind (Routes.get w url) k) Q.
Proof.
  intros Hr He st. unfold bind, Routes.get.
  destruct (fetch w url Js.Undefined) as [e|r] eqn:E.
  - eexists. cbn. split; [reflexivity | auto].
  - destruct (Hr r eq_refl
                (mkSt (draws st) (ticks st)
                   (trace st ++ [Fetch url Js.Undefined])))
      as (s & Ht & H).
    exists (Fetch url Js.Undefined :: s).
    cbn in *. rewrite Ht, <- app_assoc. auto.
Qed.

(** A computation that ends a function: [spec] for it alone. *)
Lemma spec_tail {A} (m : M A) Q :
  spec (bind m ret) Q -> spec m Q.
Proof.
  intros H st. destruct (H st) as (s & Ht & HQ). exists s.
  unfold bind, ret in *. destruct (m st) as [st' [a|e]]; auto.
Qed.

Lemma spec_of_tail {A} (m : M A) Q :
  spec m Q -> spec (bind m ret) Q.
Proof.
  intros H st. destruct (H st) as (s & Ht & HQ). exists s.
  unfold bind, ret in *. destruct (m st) as [st' [a|e]]; auto.
Qed.

(** The keys of an object literal are pairwise distinct. *)
Lemma set_field_keys k v fs :
  map fst (Js.set_field k v fs)
  = if existsb (String.eqb k) (map fst fs) then map fst fs
    else map fst fs ++ [k].
Proof.
  induction fs as [|[k0 v0] fs IH]; cbn; [reflexivity|].
  rewrite (String.eqb_sym k k0).
  destruct (String.eqb k0 k) eqn:E; cbn.
  - apply String.eqb_eq in E. now subst.
  - rewrite IH. now destruct (existsb _ _).
Qed.

Lemma existsb_eqb_in k l : existsb (String.eqb k) l = true <-> In k l.
Proof.
  rewrite existsb_exists. split.
  - intros (x & Hin & E). apply String.eqb_eq in E. now subst.
  - intros H. exists k. split; [exact H | apply String.eqb_refl].
Qed.

Lemma set_field_distinct k v fs :
  Observed.distinct_keys fs -> Observed.distinct_keys (Js.set_field k v fs).
Proof.
  unfold Observed.distinct_keys. intros H. rewrite set_field_keys.
  destruct (existsb (String.eqb k) (map fst fs)) eqn:E; [exact H|].
  apply NoDup_app; [exact H | repeat constructor; auto |].
  intros x Hx [<-|[]].
  apply existsb_eqb_in in Hx. congruence.
Qed.

Lemma fold_set_field_distinct l acc :
  Observed.distinct_keys acc ->
  Observed.distinct_keys
    (fold_left (fun a kv => Js.set_field (fst kv) (snd kv) a) l acc).
Proof.
  revert acc. induction l as [|[k v] l IH]; cbn; intros acc H; [exact H|].
  apply IH, set_field_distinct, H.
Qed.

Lemma literal_distinct l : Observed.distinct_keys (Js.literal l).
Proof. apply fold_set_field_distinct. constructor. Qed.

(** An object with distinct keys is the literal of its own properties. *)
Lemma set_field_fresh k v fs :
  ~ In k (map fst fs) -> Js.set_field k v fs = fs ++ [(k, v)].
Proof.
  induction fs as [|[k0 v0] fs IH]; cbn; intros H; [reflexivity|].
  destruct (String.eqb k0 k) eqn:E.
  - apply String.eqb_eq in E. subst. tauto.
  - rewrite IH; tauto.
Qed.

Lemma fold_set_field_fresh l acc :
  Observed.distinct_keys (acc ++ l) ->
  fold_left (fun a kv => Js.set_field (fst kv) (snd kv) a) l acc = acc ++ l.
Proof.
  revert acc. induction l as [|[k v] l IH]; cbn; intros acc H.
  - now rewrite app_nil_r.
  - assert (Hk : ~ In k (map fst acc)).
    { unfold Observed.distinct_keys in H. rewrite map_app in H. cbn in H.
      apply NoDup_remove_2 in H. intros C. apply H, in_or_app. now left. }
    rewrite (set_field_fresh k v acc Hk).
    rewrite IH; rewrite <- app_assoc; [reflexivity | exact H].
Qed.

Lemma literal_of_distinct fs :
  Observed.distinct_keys fs -> Js.literal fs = fs.
Proof. intros H. unfold Js.literal. now rewrite fold_set_field_fresh. Qed.

End MoreFacts.

(** * Further properties *)

Import JsFacts Logic MoreFacts.

(** X1: with [Math.random()] in the interval [0, 1), the fallback analysis
    resolves with an [overall_score] that is an integer of [75, 95) and a
    [total_files] that is an integer of [20, 50), whatever the request and
    the state of the server. *)
Theorem fallback_analysis_ranges
    (w : World) (repoPath : Js.value) (options : list (string * Js.value))
    (st : St) :
  Trace.random_in_unit_interval w ->
  exists fs analysis score files,
    snd (AdvancedAIService.getFallbackAnalysis w repoPath options st) = Ok fs
    /\ Js.lookup "repository_analysis" fs = Some (Js.Obj analysis)
    /\ Js.lookup "overall_score" analysis = Some (Js.int score)
    /\ 75 <= score < 95
    /\ Js.lookup "total_files" analysis = Some (Js.int files)
    /\ 20 <= files < 50.
Proof.
  intros Hrand.
  destruct (Hrand (draws st)) as [A0 A1].
  destruct (Hrand (S (draws st))) as [B0 B1].
  do 2 eexists.
  exists (Js.random_int (Math_random w (draws st)) 20 75),
         (Js.random_int (Math_random w (S (draws st))) 30 20).
  split; [reflexivity|]. split; [reflexivity|]. split; [reflexivity|].
  pose proof (random_int_range _ 20 75 A0 A1 eq_refl).
  pose proof (random_int_range _ 30 20 B0 B1 eq_refl).
  repeat split; try reflexivity; lia.
Qed.

Lemma fallback_analysis_ranges_witness :
  Trace.random_in_unit_interval Example.varying
  /\ exists fs analysis score files,
      snd (AdvancedAIService.getFallbackAnalysis Example.varying
             (Js.Str "/tmp/x") [] init) = Ok fs
      /\ Js.lookup "repository_analysis" fs = Some (Js.Obj analysis)
      /\ Js.lookup "overall_score" analysis = Some (Js.int score)
      /\ 75 <= score < 95
      /\ Js.lookup "total_files" analysis = Some (Js.int files)
      /\ 20 <= files < 50.
Proof.
  assert (H : Trace.random_in_unit_interval Example.varying).
  { intros [|n]; split; vm_compute; (discriminate || reflexivity). }
  split; [exact H|].
  apply (fallback_analysis_ranges Example.varying (Js.Str "/tmp/x") [] init H).
Defined.

(** X2: [enhanceAnalysisResult] keeps every property of a backend result
    object as it is, apart from the two it sets itself,
    [enhanced_metadata] and [performance_metrics]; it does not throw on an
    object. *)
Theorem enhance_keeps_backend_fields
    (w : World) (this : AdvancedAIService.t)
    (result analysisData : list (string * Js.value)) (st : St) :
  Observed.distinct_keys result ->
  exists fs,
    snd (AdvancedAIService.enhanceAnalysisResult w this (Js.Obj result)
           analysisData st) = Ok fs
    /\ Shape.enhanced fs
    /\ forall k,
        k <> "enhanced_metadata" -> k <> "performance_metrics" ->
        Js.lookup k fs = Js.lookup k result.
Proof.
  intros Hd.
  unfold AdvancedAIService.enhanceAnalysisResult, bind, now_iso, prop, ret.
  cbn [Js.get snd fst]. eexists. split; [reflexivity|]. split.
  - apply ServiceFacts.enhanced_literal; discriminate.
  - intros k H1 H2. cbn [Js.spread]. rewrite literal_app.
    rewrite (literal_of_distinct result Hd).
    cbn [fold_left fst snd]. rewrite !lookup_set_field.
    destruct (String.eqb "performance_metrics" k) eqn:E1.
    { apply String.eqb_eq in E1. congruence. }
    destruct (String.eqb "enhanced_metadata" k) eqn:E2.
    { apply String.eqb_eq in E2. congruence. }
    reflexivity.
Qed.

Lemma enhance_keeps_backend_fields_witness :
  Observed.distinct_keys [("success", Js.Bool true); ("issues", Js.Arr [])]
  /\ exists fs,
      snd (AdvancedAIService.enhanceAnalysisResult Example.bare
             Example.ready
             (Js.Obj [("success", Js.Bool true); ("issues", Js.Arr [])])
             Example.analysisData init) = Ok fs
      /\ Shape.enhanced fs
      /\ forall k,
          k <> "enhanced_metadata" -> k <> "performance_metrics" ->
          Js.lookup k fs
          = Js.lookup k [("success", Js.Bool true); ("issues", Js.Arr [])].
Proof.
  assert (H : Observed.distinct_keys
                [("success", Js.Bool true); ("issues", Js.Arr [])]).
  { repeat constructor; cbn; intuition discriminate. }
  split; [exact H|].
  apply (enhance_keeps_backend_fields Example.bare Example.ready
           [("success", Js.Bool true); ("issues", Js.Arr [])]
           Example.analysisData init H).
Defined.

(** X3: when the result of a backend has no [repository_analysis], or one
    without [total_files], [performance_metrics.files_processed] is 0. *)
Theorem files_processed_defaults_to_zero
    (w : World) (this : AdvancedAIService.t)
    (result analysisData : list (string * Js.value)) (st : St) :
  Js.get_opt (Js.field "repository_analysis" result) "total_files"
  = Js.Undefined ->
  exists fs metrics,
    snd (AdvancedAIService.enhanceAnalysisResult w this (Js.Obj result)
           analysisData st) = Ok fs
    /\ Js.lookup "performance_metrics" fs = Some (Js.Obj metrics)
    /\ Js.lookup "files_processed" metrics = Some (Js.int 0).
Proof.
  intros H.
  unfold AdvancedAIService.enhanceAnalysisResult, bind, now_iso, prop, ret.
  cbn [Js.get snd fst]. do 2 eexists. split; [reflexivity|]. split.
  - rewrite literal_app. cbn [fold_left fst snd].
    rewrite lookup_set_field. cbn. reflexivity.
  - cbn. rewrite H. reflexivity.
Qed.

Lemma files_processed_defaults_to_zero_witness :
  Js.get_opt (Js.field "repository_analysis" [("success", Js.Bool true)])
    "total_files" = Js.Undefined
  /\ exists fs metrics,
      snd (AdvancedAIService.enhanceAnalysisResult Example.bare
             Example.ready (Js.Obj [("success", Js.Bool true)])
             Example.analysisData init) = Ok fs
      /\ Js.lookup "performance_metrics" fs = Some (Js.Obj metrics)
      /\ Js.lookup "files_processed" metrics = Some (Js.int 0).
Proof.
  split; [reflexivity|].
  apply (files_processed_defaults_to_zero Example.bare Example.ready
           [("success", Js.Bool true)] Example.analysisData init).
  reflexivity.
Defined.

(** X4: when the analysis process exits with status 0 and prints the JSON
    document [null], [enhanceAnalysisResult] throws on it and the local
    endpoint resolves with the deterministic fallback analysis. *)
Theorem null_output_gives_fallback
    (w : World) (this : AdvancedAIService.t)
    (analysisData : list (string * Js.value)) :
  let p := spawn w (AdvancedAIService.pythonPath this)
             (AdvancedAIService.arguments this analysisData) in
  is_zero (code p) = true ->
  JSON_parse w (stdout p) = Ok Js.Null ->
  exists tr fs,
    Http.run (AdvancedAIService.analyzeWithLocalEndpoint w this analysisData)
    = (tr, Ok fs)
    /\ Shape.fallback fs
    /\ Trace.was_logged "❌ Failed to parse AI analysis result:" tr = true
    /\ Trace.was_logged "📊 Using fallback analysis mode" tr = true.
Proof.
  intros p Hz Hp. subst p.
  unfold Http.run, AdvancedAIService.analyzeWithLocalEndpoint, bind,
    run_process.
  cbn [fst snd]. rewrite Hz.
  unfold try_catch, bind, lift. rewrite Hp. cbn.
  do 2 eexists. split; [reflexivity|]. repeat split.
Qed.

Lemma null_output_gives_fallback_witness :
  exists tr fs,
    Http.run
      (AdvancedAIService.analyzeWithLocalEndpoint More.prints_null
         Example.ready Example.analysisData)
    = (tr, Ok fs)
    /\ Shape.fallback fs
    /\ Trace.was_logged "❌ Failed to parse AI analysis result:" tr = true
    /\ Trace.was_logged "📊 Using fallback analysis mode" tr = true.
Proof.
  apply (null_output_gives_fallback More.prints_null Example.ready
           Example.analysisData); reflexivity.
Defined.

(** X5: on a service that is not initialized, [analyzeRepositoryWithAI]
    starts no process and makes no network call, whatever the options ask
    for; it resolves with the fallback analysis for the same
    [repoPath]. *)
Theorem uninitialized_service_stays_local
    (w : World) (this : AdvancedAIService.t) (repoPath : Js.value)
    (options : list (string * Js.value)) :
  AdvancedAIService.isInitialized this = false ->
  exists tr fs,
    Http.run (AdvancedAIService.analyzeRepositoryWithAI w this repoPath
                options)
    = (tr, Ok fs)
    /\ Observed.spawns tr = []
    /\ Trace.fetches tr = []
    /\ Shape.fallback fs
    /\ Js.lookup "repoPath" fs = Some repoPath.
Proof.
  intros H.
  unfold Http.run, AdvancedAIService.analyzeRepositoryWithAI. rewrite H.
  cbn. do 2 eexists. split; [reflexivity|]. repeat split.
Qed.

Lemma uninitialized_service_stays_local_witness :
  exists tr fs,
    Http.run
      (AdvancedAIService.analyzeRepositoryWithAI Example.unreachable
         Example.service (Js.Str "/tmp/x")
         [("useCloudFunction", Js.Bool true)])
    = (tr, Ok fs)
    /\ Observed.spawns tr = []
    /\ Trace.fetches tr = []
    /\ Shape.fallback fs
    /\ Js.lookup "repoPath" fs = Some (Js.Str "/tmp/x").
Proof.
  apply (uninitialized_service_stays_local Example.unreachable
           Example.service (Js.Str "/tmp/x")
           [("useCloudFunction", Js.Bool true)]).
  reflexivity.
Defined.

(** X6: with a configured URL, when the remote call fails the adapter makes
    exactly one network call, logs the error and rejects: with the error
    of [fetch] itself after a network error, with ['Cloud Function request
    failed: ' + statusText] after a status that is not 2xx. *)
Theorem cloud_function_adapter_rejects
    (w : World) (this : AdvancedAIService.t)
    (analysisData : list (string * Js.value)) :
  let call := fetch w (env_string w "CLOUD_FUNCTION_URL")
                (Js.to_json (Js.Obj analysisData)) in
  Js.truthy (env_value w "CLOUD_FUNCTION_URL") = true ->
  Trace.remote_failed call ->
  exists e,
    Http.run (AdvancedAIService.analyzeWithCloudFunction w this analysisData)
    = ([Fetch (env_string w "CLOUD_FUNCTION_URL")
          (Js.to_json (Js.Obj analysisData));
        ConsoleError "❌ Cloud Function analysis failed:" e],
       Throw e)
    /\ match call with
       | NetworkError e' => e = e'
       | Responded r =>
           e = mkError "Error"
                 ("Cloud Function request failed: " ++ statusText r)
       end.
Proof.
  intros call Hurl Hfail.
  unfold Http.run, AdvancedAIService.analyzeWithCloudFunction.
  rewrite Hurl. cbn [negb]. unfold try_catch, bind, post. cbn [fst snd].
  fold call. destruct call as [e|r]; cbn in Hfail |- *.
  - exists e. split; reflexivity.
  - rewrite Hfail. cbn. eexists. split; reflexivity.
Qed.

Lemma cloud_function_adapter_rejects_witness :
  exists e,
    Http.run
      (AdvancedAIService.analyzeWithCloudFunction Example.failing
         Example.ready Example.analysisData)
    = ([Fetch (env_string Example.failing "CLOUD_FUNCTION_URL")
          (Js.to_json (Js.Obj Example.analysisData));
        ConsoleError "❌ Cloud Function analysis failed:" e],
       Throw e)
    /\ e = mkError "Error"
             "Cloud Function request failed: Internal Server Error".
Proof.
  apply (cloud_function_adapter_rejects Example.failing Example.ready
           Example.analysisData); reflexivity.
Defined.



Lemma log_chunks_spec trim cs :
  spec (Lifecycle.log_chunks trim cs)
    (fun s r => r = Ok tt /\ Observed.spawns s = [] /\ Trace.fetches s = []).
Proof.
  induction cs as [|c cs IH]; cbn [Lifecycle.log_chunks].
  - apply spec_ret. auto.
  - unfold log. apply spec_emit. apply spec_tail.
    eapply spec_bind; [exact IH | |].
    + intros s1 [] (_ & H1 & H2). apply spec_ret.
      rewrite app_nil_r. auto.
    + intros s1 e ([=] & _).
Qed.

(** What a request to create an endpoint ends in. *)
Lemma createEndpoint_spec w chunks trim this :
  spec (Lifecycle.createEndpoint w chunks trim this)
    (fun s r =>
       let p := spawn w (AdvancedAIService.pythonPath this)
                  (Lifecycle.endpoint_arguments this) in
       Trace.fetches s = []
       /\ match r with
          | Ok (id, this') =>
              AdvancedAIService.isInitialized this = true
              /\ is_zero (code p) = true
              /\ Lifecycle.match_endpoint (stdout p) = Some id
              /\ this' = Lifecycle.with_endpoint id this
              /\ Observed.spawns s
                 = [Spawn (AdvancedAIService.pythonPath this)
                      (Lifecycle.endpoint_arguments this)]
          | Throw e =>
              (AdvancedAIService.isInitialized this = false
               /\ e = mkError "Error" "AI Service not initialized"
               /\ s = [])
              \/ (is_zero (code p) = false
                  /\ e = mkError "Error"
                           ("Endpoint creation failed: " ++ stderr p))
              \/ (Lifecycle.match_endpoint (stdout p) = None
                  /\ e = mkError "Error"
                           "Could not extract endpoint ID from output")
          end).
Proof.
  unfold Lifecycle.createEndpoint.
  destruct (AdvancedAIService.isInitialized this) eqn:Hi; cbn [negb].
  - unfold log. apply spec_emit, spec_run_process.
    set (p := spawn w _ _).
    eapply spec_bind; [apply log_chunks_spec | |].
    + intros s1 [] (_ & Hs & Hf).
      destruct (is_zero (code p)) eqn:Hz.
      * destruct (Lifecycle.match_endpoint (stdout p)) as [id|] eqn:Hm.
        -- apply spec_emit, spec_ret. cbn zeta.
           unfold Trace.fetches, Observed.spawns in *. cbn.
           rewrite !filter_app, Hs, Hf. cbn. auto 10.
        -- apply spec_throw. cbn zeta.
           unfold Trace.fetches in *. cbn. rewrite filter_app, Hf. cbn.
           split; [reflexivity|]. right. right. auto.
      * apply spec_throw. cbn zeta.
        unfold Trace.fetches in *. cbn. rewrite filter_app, Hf. cbn.
        split; [reflexivity|]. right. left. auto.
    + intros s1 e ([=] & _).
  - apply spec_throw. cbn zeta. split; [reflexivity|]. left. auto.
Qed.


(** X10: on a service that is not initialized, [createEndpoint] rejects
    with ['AI Service not initialized'] before it starts a process, and the
    route replies with status 500 and that message. *)
Theorem create_endpoint_needs_initialization
    (w : World) (chunks : string -> list string) (trim : string -> string)
    (aiService : AdvancedAIService.t) :
  AdvancedAIService.isInitialized aiService = false ->
  Http.run (Lifecycle.createEndpoint w chunks trim aiService)
  = ([], Throw (mkError "Error" "AI Service not initialized"))
  /\ exists tr reply,
      Http.run (Routes.post_create_endpoint w chunks trim aiService)
      = (tr, Ok (reply, aiService))
      /\ Observed.spawns tr = []
      /\ Http.code reply = 500
      /\ Js.get_opt (Http.body reply) "message"
         = Js.Str "AI Service not initialized".
Proof.
  intros H. unfold Http.run, Routes.post_create_endpoint,
    Lifecycle.createEndpoint. rewrite H. cbn.
  split; [reflexivity|]. do 2 eexists. repeat split.
Qed.

Lemma create_endpoint_needs_initialization_witness :
  Http.run
    (Lifecycle.createEndpoint Example.bare (fun s => [s]) (fun s => s)
       Example.service)
  = ([], Throw (mkError "Error" "AI Service not initialized")).
Proof.
  apply (create_endpoint_needs_initialization Example.bare (fun s => [s])
           (fun s => s) Example.service).
  reflexivity.
Defined.

Lemma after_prefix_app p s rest :
  Lifecycle.after_prefix p s = Some rest -> s = p ++ rest.
Proof.
  revert s. induction p as [|a p IH]; intros s; cbn.
  - now intros [= ->].
  - destruct s as [|b s]; [discriminate|].
    destruct (Ascii.eqb a b) eqn:E; [|discriminate].
    apply Ascii.eqb_eq in E. subst b. intros H. now rewrite (IH s H).
Qed.

Lemma after_prefix_self p rest :
  Lifecycle.after_prefix p (p ++ rest) = Some rest.
Proof.
  induction p as [|a p IH]; cbn; [reflexivity|].
  now rewrite Ascii.eqb_refl.
Qed.

Lemma take_id_split s :
  exists post,
    s = Lifecycle.take_id s ++ post
    /\ Observed.ends_identifier post = true
    /\ Observed.all_id_chars (Lifecycle.take_id s) = true.
Proof.
  induction s as [|c s (post & Hs & He & Ha)]; cbn.
  - exists "". auto.
  - destruct (Lifecycle.id_char c) eqn:E.
    + exists post. cbn. rewrite E, Ha. split; [now rewrite <- Hs | auto].
    + exists (String c s). cbn. rewrite E. auto.
Qed.

Lemma take_id_app id post :
  Observed.all_id_chars id = true ->
  Observed.ends_identifier post = true ->
  Lifecycle.take_id (id ++ post) = id.
Proof.
  intros Ha He. induction id as [|c id IH]; cbn in *.
  - destruct post as [|c post]; [reflexivity|]. cbn in *.
    now apply negb_true_iff in He as ->.
  - apply andb_true_iff in Ha as [-> Ha]. now rewrite IH.
Qed.

Lemma match_here_sound s id :
  Lifecycle.match_here s = Some id ->
  id <> ""
  /\ Observed.all_id_chars id = true
  /\ exists post,
      s = "Endpoint ID: " ++ id ++ post
      /\ Observed.ends_identifier post = true.
Proof.
  unfold Lifecycle.match_here.
  destruct (Lifecycle.after_prefix "Endpoint ID: " s) as [rest|] eqn:E;
    [|discriminate].
  apply after_prefix_app in E.
  destruct (take_id_split rest) as (post & Hr & He & Ha).
  destruct (Lifecycle.take_id rest) as [|c t] eqn:T; [discriminate|].
  intros [= <-]. split; [discriminate|]. split; [exact Ha|].
  exists post. split; [|exact He]. rewrite E. f_equal. exact Hr.
Qed.

(** X11: whatever the process printed, an identifier extracted by
    [/Endpoint ID: ([a-zA-Z0-9-]+)/] is never empty, holds only letters,
    digits and hyphens, stands in the output right after ['Endpoint ID: ']
    and is not followed by another character of that class. *)
Theorem match_endpoint_sound (output id : string) :
  Lifecycle.match_endpoint output = Some id ->
  id <> ""
  /\ Observed.all_id_chars id = true
  /\ exists pre post,
      output = pre ++ "Endpoint ID: " ++ id ++ post
      /\ Observed.ends_identifier post = true.
Proof.
  induction output as [|c output IH].
  - cbn. discriminate.
  - cbn [Lifecycle.match_endpoint].
    destruct (Lifecycle.match_here (String c output)) as [id'|] eqn:E.
    + intros [= ->]. apply match_here_sound in E.
      destruct E as (Hn & Ha & post & Hs & He).
      repeat split; auto. exists "", post. auto.
    + intros H. destruct (IH H) as (Hn & Ha & pre & post & Hs & He).
      repeat split; auto. exists (String c pre), post.
      split; [|exact He]. cbn. now rewrite Hs.
Qed.

Lemma match_endpoint_sound_witness :
  Lifecycle.match_endpoint "Created. Endpoint ID: ep-42 (ready)"
  = Some "ep-42"
  /\ "ep-42" <> ""
  /\ Observed.all_id_chars "ep-42" = true.
Proof.
  split; [reflexivity|].
  destruct (match_endpoint_sound "Created. Endpoint ID: ep-42 (ready)"
              "ep-42" eq_refl) as (H1 & H2 & _).
  split; assumption.
Defined.

Lemma match_here_no_E c s :
  Ascii.eqb c "E" = false -> Lifecycle.match_here (String c s) = None.
Proof.
  intros H. unfold Lifecycle.match_here. cbn [Lifecycle.after_prefix].
  rewrite Ascii.eqb_sym, H. reflexivity.
Qed.

Lemma match_endpoint_here s id :
  Lifecycle.match_here s = Some id -> Lifecycle.match_endpoint s = Some id.
Proof.
  intros H. destruct s; cbn [Lifecycle.match_endpoint]; now rewrite H.
Qed.

(** X12: when the process prints ['Endpoint ID: '] followed by an
    identifier of letters, digits and hyphens, after a text without the
    letter E and before a character outside that class or the end of the
    output, the expression extracts exactly that identifier. *)
Theorem match_endpoint_finds_identifier (pre id post : string) :
  Observed.free_of "E" pre = true ->
  id <> "" ->
  Observed.all_id_chars id = true ->
  Observed.ends_identifier post = true ->
  Lifecycle.match_endpoint (pre ++ "Endpoint ID: " ++ id ++ post) = Some id.
Proof.
  intros Hp Hn Ha He. induction pre as [|c pre IH].
  - apply match_endpoint_here. unfold Lifecycle.match_here.
    change ("" ++ "Endpoint ID: " ++ id ++ post)
      with ("Endpoint ID: " ++ (id ++ post)).
    rewrite after_prefix_self, (take_id_app id post Ha He).
    destruct id; [congruence | reflexivity].
  - cbn in Hp. apply andb_true_iff in Hp as [Hc Hp].
    apply negb_true_iff in Hc.
    change (String c pre ++ "Endpoint ID: " ++ id ++ post)
      with (String c (pre ++ "Endpoint ID: " ++ id ++ post)).
    cbn [Lifecycle.match_endpoint].
    rewrite (match_here_no_E c _ Hc). now apply IH.
Qed.

Lemma match_endpoint_finds_identifier_witness :
  Lifecycle.match_endpoint
    ("deploying model" ++ "Endpoint ID: " ++ "a1-b2" ++ " done")
  = Some "a1-b2".
Proof.
  apply (match_endpoint_finds_identifier "deploying model" "a1-b2" " done");
    [reflexivity | discriminate | reflexivity | reflexivity].
Defined.

Lemma getAIStatus_spec w this :
  spec (Lifecycle.getAIStatus w this)
    (fun s r =>
       let deps := Spawn (AdvancedAIService.pythonPath this)
                     Lifecycle.dependency_arguments in
       Observed.spawns s = [deps]
       /\ Trace.fetches s = []
       /\ exists fs,
           r = Ok fs
           /\ Js.lookup "python_dependencies" fs
              = Some (Js.Bool
                        (is_zero
                           (code (spawn w (AdvancedAIService.pythonPath this)
                                    Lifecycle.dependency_arguments))))
           /\ Js.lookup "initialized" fs
              = Some (Js.Bool (AdvancedAIService.isInitialized this))).
Proof.
  intros st.
  unfold Lifecycle.getAIStatus, Lifecycle.checkPythonDependencies,
    try_catch, bind, run_process, log, emit, ret, throw, now_iso.
  cbn [fst snd draws ticks trace].
  destruct (is_zero (code (spawn w _ Lifecycle.dependency_arguments)));
    cbn [fst snd draws ticks trace]; eexists;
    (split; [rewrite <- ?app_assoc; reflexivity|]);
    cbn zeta; repeat split; eexists; repeat split.
Qed.


(** X14: [GET /api/cloud-function/status] answers every request with
    status 200.  Without a configured URL it makes no network call and
    reports [available: false]; with one it makes exactly one call, to the
    health address, and reports [available: true] only for an answer with
    a 2xx status; a network error gives [available: false] with the
    message of the error. *)
Theorem cloud_function_status_reports (w : World) :
  let url := env_string w "CLOUD_FUNCTION_URL" in
  let probe := Fetch (Routes.healthUrl url) Js.Undefined in
  exists tr reply,
    Http.run (Routes.get_cloud_function_status w) = (tr, Ok reply)
    /\ Http.code reply = 200
    /\ if Js.truthy (env_value w "CLOUD_FUNCTION_URL") then
         tr = [probe]
         /\ match fetch w (Routes.healthUrl url) Js.Undefined with
            | Responded r =>
                Js.get_opt (Http.body reply) "available" = Js.Bool (ok r)
                /\ Js.get_opt (Http.body reply) "status"
                   = Js.int (status r)
            | NetworkError e =>
                Js.get_opt (Http.body reply) "available" = Js.Bool false
                /\ Js.get_opt (Http.body reply) "error"
                   = Js.Str (message e)
            end
       else
         tr = []
         /\ Js.get_opt (Http.body reply) "available" = Js.Bool false
         /\ Js.get_opt (Http.body reply) "url" = Js.Null.
Proof.
  intros url probe. subst url probe.
  unfold Http.run, Routes.get_cloud_function_status, try_catch.
  destruct (Js.truthy (env_value w "CLOUD_FUNCTION_URL")); cbn [negb].
  - unfold bind, Routes.get. cbn [fst snd draws ticks trace init app].
    destruct (fetch w _ Js.Undefined) as [e|r]; cbn;
      do 2 eexists; repeat split.
  - cbn. do 2 eexists. repeat split.
Qed.

(** X15: when the request does not ask for the cloud function, the client
    makes exactly one network call, a POST of the request as it is to
    [/analyze] of the API.  It resolves with the parsed body of a 2xx
    answer and rejects otherwise: with the error of [fetch], or with
    ['API request failed: ' + statusText]. *)
Theorem client_calls_local_api
    (w : World) (data : list (string * Js.value)) :
  let url := ApiService.API_BASE_URL w ++ "/analyze" in
  let sent := Js.to_json (Js.Obj data) in
  Js.truthy (Js.field "useCloudFunction" data) = false ->
  Http.run (ApiService.startAnalysis w data)
  = ([Fetch url sent],
     match fetch w url sent with
     | NetworkError e => Throw e
     | Responded r =>
         if ok r then json r
         else Throw (mkError "Error"
                       ("API request failed: " ++ statusText r))
     end).
Proof.
  intros url sent H. subst url sent.
  unfold Http.run, ApiService.startAnalysis. rewrite H.
  unfold ApiService.request, bind, post. cbn [fst snd draws ticks trace init].
  destruct (fetch w _ _) as [e|r]; [reflexivity|].
  destruct (ok r); reflexivity.
Qed.

Lemma client_calls_local_api_witness :
  Http.run
    (ApiService.startAnalysis Example.failing
       [("repoPath", Js.Str "/tmp/x")])
  = ([Fetch "http://localhost:3000/api/analyze"
        (Js.Obj [("repoPath", Js.Str "/tmp/x")])],
     Throw (mkError "Error" "API request failed: Internal Server Error")).
Proof.
  apply (client_calls_local_api Example.failing
           [("repoPath", Js.Str "/tmp/x")]).
  reflexivity.
Defined.

Lemma lookup_fields_to_json k fs :
  Observed.distinct_keys fs ->
  Js.lookup k (Js.fields_to_json fs)
  = match Js.lookup k fs with
    | Some Js.Undefined | None => None
    | Some v => Some (Js.to_json v)
    end.
Proof.
  unfold Observed.distinct_keys.
  induction fs as [|[k0 v0] fs IH]; intros Hd; [reflexivity|].
  cbn in Hd. inversion Hd as [|? ? Hn Hd']; subst.
  rewrite fields_to_json_cons. cbn [Js.lookup].
  destruct (String.eqb k0 k) eqn:E.
  - apply String.eqb_eq in E. subst k0.
    assert (Hnone : Js.lookup k (Js.fields_to_json fs) = None).
    { rewrite (IH Hd').
      destruct (Js.lookup k fs) as [v|] eqn:L; [|reflexivity].
      apply lookup_in in L. apply (in_map fst) in L. contradiction. }
    destruct v0; cbn [Js.lookup]; rewrite ?String.eqb_refl;
      try reflexivity. exact Hnone.
  - destruct v0; cbn [Js.lookup]; rewrite ?E; apply (IH Hd').
Qed.

(** X16: when the request asks for the cloud function and that call fails
    with a network error or a status that is not 2xx, the client logs the
    error and makes a second call, to [/analyze] of the API, whose body
    carries [useCloudFunction: false] and every other property of the
    request as it was; what the client resolves or rejects with is the
    outcome of that second call. *)
Theorem client_falls_back_to_local_api
    (w : World) (data : list (string * Js.value)) :
  let cloud := ApiService.CLOUD_FUNCTION_URL w in
  let asked := Js.to_json (ApiService.cloud_request data) in
  let url := ApiService.API_BASE_URL w ++ "/analyze" in
  let sent := Js.to_json (ApiService.local_request data) in
  Observed.distinct_keys data ->
  Js.truthy (Js.field "useCloudFunction" data) = true ->
  Trace.remote_failed (fetch w cloud asked) ->
  (exists tr,
     Http.run (ApiService.startAnalysis w data)
     = (tr,
        match fetch w url sent with
        | NetworkError e => Throw e
        | Responded r =>
            if ok r then json r
            else Throw (mkError "Error"
                          ("API request failed: " ++ statusText r))
        end)
     /\ Trace.fetches tr = [Fetch cloud asked; Fetch url sent]
     /\ Trace.was_logged
          "Cloud Function analysis failed, falling back to local API:" tr
        = true)
  /\ Js.get_opt sent "useCloudFunction" = Js.Bool false
  /\ forall k, k <> "useCloudFunction" ->
               Js.get_opt sent k = Js.get_opt (Js.to_json (Js.Obj data)) k.
Proof.
  intros cloud asked url sent Hd Hcf Hfail. split; [|split].
  - unfold Http.run, ApiService.startAnalysis. rewrite Hcf.
    unfold ApiService.cloudFunctionRequest, try_catch, bind, log, emit,
      post.
    cbn [fst snd draws ticks trace init app].
    fold cloud asked. destruct (fetch w cloud asked) as [e|r];
      cbn [Trace.remote_failed] in Hfail;
      cbn [fst snd draws ticks trace init app].
    + unfold error_with, emit, ApiService.request, bind, post.
      cbn [fst snd draws ticks trace app]. fold url sent.
      exists [Console "log" "🚀 Starting Cloud Function analysis..." [];
              Fetch cloud asked;
              ConsoleError
                "Cloud Function analysis failed, falling back to local API:"
                e;
              Fetch url sent].
      split; [|split; reflexivity].
      destruct (fetch w url sent) as [e'|r']; [reflexivity|].
      destruct (ok r'); reflexivity.
    + rewrite Hfail. cbn [negb throw fst snd].
      unfold error_with, emit, ApiService.request, bind, post.
      cbn [fst snd draws ticks trace app]. fold url sent.
      exists [Console "log" "🚀 Starting Cloud Function analysis..." [];
              Fetch cloud asked;
              ConsoleError
                "Cloud Function analysis failed, falling back to local API:"
                (mkError "Error"
                   ("Cloud Function request failed: " ++ statusText r));
              Fetch url sent].
      split; [|split; reflexivity].
      destruct (fetch w url sent) as [e'|r']; [reflexivity|].
      destruct (ok r'); reflexivity.
  - subst sent. unfold ApiService.local_request, Js.get_opt, Js.get.
    change (Js.to_json (Js.Obj ?fs)) with (Js.Obj (Js.fields_to_json fs)).
    cbn [Js.spread]. unfold Js.field.
    rewrite lookup_fields_to_json by apply literal_distinct.
    rewrite literal_app, (literal_of_distinct data Hd).
    cbn [fold_left fst snd]. rewrite lookup_set_field. reflexivity.
  - intros k Hk. subst sent. unfold ApiService.local_request, Js.get_opt,
      Js.get.
    change (Js.to_json (Js.Obj ?fs)) with (Js.Obj (Js.fields_to_json fs)).
    cbn [Js.spread]. unfold Js.field.
    rewrite !lookup_fields_to_json by (apply literal_distinct || exact Hd).
    rewrite literal_app, (literal_of_distinct data Hd).
    cbn [fold_left fst snd]. rewrite lookup_set_field.
    destruct (String.eqb "useCloudFunction" k) eqn:E; [|reflexivity].
    apply String.eqb_eq in E. congruence.
Qed.

Lemma client_falls_back_to_local_api_witness :
  Js.get_opt
    (Js.to_json
       (ApiService.local_request
          [("repoPath", Js.Str "/tmp/x"); ("useCloudFunction", Js.Bool true)]))
    "useCloudFunction"
  = Js.Bool false.
Proof.
  apply (client_falls_back_to_local_api Example.failing
           [("repoPath", Js.Str "/tmp/x");
            ("useCloudFunction", Js.Bool true)]).
  - repeat constructor; cbn; intuition discriminate.
  - reflexivity.
  - reflexivity.
Defined.

Lemma or_else_int n : Js.or_else (Js.int n) (Js.int 0) = Js.int n.
Proof.
  unfold Js.or_else, Js.int. cbn.
  destruct (Qeq_bool (inject_Z n) 0) eqn:E; [|reflexivity].
  apply Qeq_bool_iff in E. unfold Qeq in E. cbn in E.
  assert (n = 0) by lia. now subst.
Qed.

(** X17: when the cloud function answers the client with a 2xx status and
    a JSON object, the client makes no call to the API: it resolves with a
    result whose [success] tells whether [status] is ['success'], whose
    [issues] are those of the answer, whose [results.issuesFound] is their
    number and whose [results.qualityScore] is an integer of [80, 100). *)
Theorem client_transforms_cloud_answer
    (w : World) (data : list (string * Js.value)) (r : response)
    (cloudResponse : list (string * Js.value)) (items : list Js.value) :
  let cloud := ApiService.CLOUD_FUNCTION_URL w in
  let asked := Js.to_json (ApiService.cloud_request data) in
  Js.truthy (Js.field "useCloudFunction" data) = true ->
  fetch w cloud asked = Responded r ->
  ok r = true ->
  json r = Ok (Js.Obj cloudResponse) ->
  Js.lookup "issues" cloudResponse = Some (Js.Arr items) ->
  Trace.random_in_unit_interval w ->
  exists tr fs results score,
    Http.run (ApiService.startAnalysis w data) = (tr, Ok (Js.Obj fs))
    /\ Trace.fetches tr = [Fetch cloud asked]
    /\ Js.lookup "success" fs
       = Some (Js.Bool (Js.strict_eq_str (Js.field "status" cloudResponse)
                          "success"))
    /\ Js.lookup "issues" fs = Some (Js.Arr items)
    /\ Js.lookup "results" fs = Some (Js.Obj results)
    /\ Js.lookup "issuesFound" results
       = Some (Js.int (Z.of_nat (List.length items)))
    /\ Js.lookup "qualityScore" results = Some (Js.int score)
    /\ 80 <= score < 100.
Proof.
  intros cloud asked Hcf Hfetch Hok Hjson Hissues Hrand.
  unfold Http.run, ApiService.startAnalysis. rewrite Hcf.
  unfold ApiService.cloudFunctionRequest, try_catch, bind, log, emit, post.
  cbn [fst snd draws ticks trace init app].
  fold cloud asked. rewrite Hfetch, Hok. cbn [negb].
  unfold lift. rewrite Hjson. cbn [fst snd prop Js.get ret].
  assert (Hf : Js.field "issues" cloudResponse = Js.Arr items)
    by (unfold Js.field; now rewrite Hissues).
  unfold now_iso, random. cbn [fst snd draws ticks trace].
  rewrite Hf. cbn [ApiService.length_of]. rewrite or_else_int. cbn.
  do 3 eexists. exists (Js.random_int (Math_random w 0) 20 80).
  split; [reflexivity|]. repeat split; try reflexivity;
    destruct (Hrand 0%nat) as [H0 H1];
    pose proof (random_int_range (Math_random w 0) 20 80 H0 H1 eq_refl); lia.
Qed.

Lemma client_transforms_cloud_answer_witness :
  exists tr fs results,
    Http.run
      (ApiService.startAnalysis More.cloud_ok
         [("repoPath", Js.Str "/tmp/x"); ("useCloudFunction", Js.Bool true)])
    = (tr, Ok (Js.Obj fs))
    /\ Js.lookup "results" fs = Some (Js.Obj results)
    /\ Js.lookup "issuesFound" results = Some (Js.int 2).
Proof.
  assert (H : Trace.random_in_unit_interval More.cloud_ok).
  { intros n. split; vm_compute; [discriminate | reflexivity]. }
  destruct (client_transforms_cloud_answer More.cloud_ok
              [("repoPath", Js.Str "/tmp/x");
               ("useCloudFunction", Js.Bool true)]
              (mkResponse 200 "OK" (Ok More.two_issues))
              [("status", Js.Str "success");
               ("issues",
                Js.Arr (map Issue.to_value AdvancedAIService.fallback_issues));
               ("metadata", Js.Obj [("files_analyzed", Js.int 12)])]
              (map Issue.to_value AdvancedAIService.fallback_issues)
              eq_refl eq_refl eq_refl eq_refl eq_refl H)
    as (tr & fs & results & score & H1 & _ & _ & _ & H2 & H3 & _).
  exists tr, fs, results. auto.
Defined.

Lemma count_of_set_count k k' n acc :
  IssuesChart.count_of k (IssuesChart.set_count k' n acc)
  = if String.eqb k' k then n else IssuesChart.count_of k acc.
Proof.
  induction acc as [|[k0 n0] acc IH]; cbn; [reflexivity|].
  destruct (String.eqb k0 k') eqn:E0; cbn.
  - apply String.eqb_eq in E0. subst k0.
    destruct (String.eqb k' k); reflexivity.
  - rewrite IH. destruct (String.eqb k0 k) eqn:E1; [|reflexivity].
    apply String.eqb_eq in E1. subst k0.
    now rewrite String.eqb_sym, E0.
Qed.

Lemma issuesByType_counts k issues acc :
  IssuesChart.count_of k
    (fold_left
       (fun acc issue =>
          IssuesChart.set_count (Issue.type issue)
            (IssuesChart.count_of (Issue.type issue) acc + 1) acc)
       issues acc)
  = IssuesChart.count_of k acc + IssuesChart.occurrences k issues.
Proof.
  revert acc. unfold IssuesChart.occurrences.
  induction issues as [|i issues IH]; intros acc; cbn [fold_left filter].
  - cbn. lia.
  - rewrite IH, count_of_set_count.
    destruct (String.eqb (Issue.type i) k) eqn:E.
    + apply String.eqb_eq in E. subst k. cbn [List.length]. lia.
    + lia.
Qed.

Lemma occurrences_disjoint issues :
  IssuesChart.occurrences "security" issues
  + IssuesChart.occurrences "quality" issues
  + IssuesChart.occurrences "performance" issues
  <= Z.of_nat (List.length issues).
Proof.
  unfold IssuesChart.occurrences.
  induction issues as [|i issues IH]; cbn [filter List.length]; [lia|].
  destruct (String.eqb (Issue.type i) "security") eqn:E1;
    destruct (String.eqb (Issue.type i) "quality") eqn:E2;
    destruct (String.eqb (Issue.type i) "performance") eqn:E3;
    cbn [List.length];
    try (apply String.eqb_eq in E1); try (apply String.eqb_eq in E2);
    try (apply String.eqb_eq in E3); try congruence; lia.
Qed.

(** X18: for every list of issues the three values of the chart are the
    numbers of issues of type security, quality and performance, in that
    order; issues of another type are in none of them, so the values add up
    to at most the number of issues. *)
Theorem chart_counts_issues_by_type (issues : list Issue.t) :
  IssuesChart.data issues
  = [IssuesChart.occurrences "security" issues;
     IssuesChart.occurrences "quality" issues;
     IssuesChart.occurrences "performance" issues]
  /\ IssuesChart.occurrences "security" issues
     + IssuesChart.occurrences "quality" issues
     + IssuesChart.occurrences "performance" issues
     <= Z.of_nat (List.length issues).
Proof.
  split; [|apply occurrences_disjoint].
  unfold IssuesChart.data, IssuesChart.issuesByType.
  now rewrite !issuesByType_counts.
Qed.

Lemma before_not_positive a b :
  IssueList.before a b ->
  IssueList.positive (IssueList.comparefn a b) = false.
Proof.
  unfold IssueList.before.
  destruct (Issue.remediation_priority a) as [pa|] eqn:Ea; [|tauto].
  destruct (Issue.remediation_priority b) as [pb|] eqn:Eb; [|tauto].
  rewrite (IssueFacts.comparefn_prioritized a b pa pb Ea Eb).
  intros [H|[H C]].
  - assert (E : (pa =? pb) = false) by (apply Z.eqb_neq; lia).
    rewrite E. apply negb_false_iff, IssueFacts.Qle_bool_diff.
    rewrite <- Zle_Qle. lia.
  - subst pb. rewrite Z.eqb_refl.
    now apply negb_false_iff, IssueFacts.Qle_bool_diff.
Qed.

(** X19: the sort of [/api/issues] returns a list that is already in the
    order of the route unchanged; sorting a second time changes nothing. *)
Theorem sort_keeps_ordered_issues (l : list Issue.t) :
  StronglySorted IssueList.before l ->
  IssueList.sort IssueList.comparefn l = l.
Proof.
  induction 1 as [|x l Hs IH Hx]; [reflexivity|].
  cbn [IssueList.sort fold_right]. fold (IssueList.sort IssueList.comparefn l).
  rewrite IH. destruct l as [|y l]; [reflexivity|].
  cbn [IssueList.insert]. inversion Hx as [|? ? Hxy _]; subst.
  now rewrite (before_not_positive x y Hxy).
Qed.

Lemma sort_keeps_ordered_issues_witness :
  IssueList.sort IssueList.comparefn
    [nth 0 EnhancedServer.issues (Issue.mk "" "" "" 0 "" "" "" None None
                                    None None None);
     nth 3 EnhancedServer.issues (Issue.mk "" "" "" 0 "" "" "" None None
                                    None None None);
     nth 1 EnhancedServer.issues (Issue.mk "" "" "" 0 "" "" "" None None
                                    None None None)]
  = [nth 0 EnhancedServer.issues (Issue.mk "" "" "" 0 "" "" "" None None
                                    None None None);
     nth 3 EnhancedServer.issues (Issue.mk "" "" "" 0 "" "" "" None None
                                    None None None);
     nth 1 EnhancedServer.issues (Issue.mk "" "" "" 0 "" "" "" None None
                                    None None None)].
Proof.
  apply sort_keeps_ordered_issues.
  repeat first [apply SSorted_cons | apply SSorted_nil
               | apply Forall_cons | apply Forall_nil];
    unfold IssueList.before; cbn;
    first [left; lia | right; split; [reflexivity | unfold Qle; cbn; lia]].
Defined.

Lemma in_filter_by x k l i :
  In i (IssueList.filter_by x k l)
  <-> In i l /\ (Js.truthy x = true -> x = Js.Str (k i)).
Proof.
  unfold IssueList.filter_by. destruct (Js.truthy x) eqn:E.
  - rewrite filter_In. split.
    + intros [H1 H2]. split; [exact H1|]. intros _.
      destruct x; try discriminate. cbn in H2.
      apply String.eqb_eq in H2. now subst.
    + intros [H1 H2]. split; [exact H1|].
      rewrite (H2 eq_refl). cbn. apply String.eqb_refl.
  - split; [intros H; split; [exact H | discriminate] | tauto].
Qed.

Lemma in_filter_flag x k l i :
  In i (IssueList.filter_flag x k l)
  <-> In i l /\ (x = Js.Str "true" -> Issue.flag (k i) = true).
Proof.
  unfold IssueList.filter_flag.
  destruct (Js.strict_eq_str x "true") eqn:E.
  - rewrite filter_In. split.
    + intros [H1 H2]. auto.
    + intros [H1 H2]. split; [exact H1|]. apply H2.
      destruct x; try discriminate. cbn in E.
      apply String.eqb_eq in E. now subst.
  - split; [|tauto]. intros H. split; [exact H|].
    intros ->. discriminate.
Qed.

(** X20: for every query, the issues of [GET /api/issues] are exactly the
    issues of the fixed list that pass every filter the query gives: a
    [type] and a [severity] that are not empty must be the issue's own, and
    [ai_only] and [cloud_function_only] count only when they are the
    string ['true']; [metadata.total_issues] is their number. *)
Theorem issues_route_returns_the_matching_issues
    (query : list (string * Js.value)) (i : Issue.t) :
  (In i (EnhancedServer.filteredIssues query)
   <-> In i EnhancedServer.issues
       /\ (Js.truthy (Js.field "type" query) = true ->
           Js.field "type" query = Js.Str (Issue.type i))
       /\ (Js.truthy (Js.field "severity" query) = true ->
           Js.field "severity" query = Js.Str (Issue.severity i))
       /\ (Js.field "ai_only" query = Js.Str "true" ->
           Issue.flag (Issue.ai_detected i) = true)
       /\ (Js.field "cloud_function_only" query = Js.Str "true" ->
           Issue.flag (Issue.cloud_function_analysis i) = true))
  /\ Js.get_opt
       (Js.get_opt (Http.body (EnhancedServer.get_issues query)) "metadata")
       "total_issues"
     = Js.int (Z.of_nat (List.length (EnhancedServer.filteredIssues query)))
  /\ List.length (EnhancedServer.filteredIssues query)
     = List.length (EnhancedServer.matching query).
Proof.
  split; [|split; [reflexivity|]].
  - unfold EnhancedServer.filteredIssues.
    assert (Hp := IssueFacts.sort_perm (EnhancedServer.matching query)).
    split.
    + intros H. apply (Permutation_in _ (Permutation_sym Hp)) in H.
      unfold EnhancedServer.matching in H.
      apply in_filter_flag in H as [H H4].
      apply in_filter_flag in H as [H H3].
      apply in_filter_by in H as [H H2].
      apply in_filter_by in H as [H H1]. auto.
    + intros (H & H1 & H2 & H3 & H4). apply (Permutation_in _ Hp).
      unfold EnhancedServer.matching.
      apply in_filter_flag. split; [|exact H4].
      apply in_filter_flag. split; [|exact H3].
      apply in_filter_by. split; [|exact H2].
      apply in_filter_by. auto.
  - symmetry. apply Permutation_length, IssueFacts.sort_perm.
Qed.

Lemma sum_shift (l : list Issue.t) (a : Q) :
  (fold_left (fun sum i => sum + Issue.confidence_or_0 i) l a
   == a + fold_left (fun sum i => sum + Issue.confidence_or_0 i) l 0)%Q.
Proof.
  revert a. induction l as [|i l IH]; intros a; cbn [fold_left].
  - ring.
  - rewrite (IH (a + Issue.confidence_or_0 i)%Q).
    rewrite (IH (0 + Issue.confidence_or_0 i)%Q). ring.
Qed.

Lemma sum_bounds (lo hi : Q) (l : list Issue.t) :
  Forall (fun i => (lo <= Issue.confidence_or_0 i)%Q
                   /\ (Issue.confidence_or_0 i <= hi)%Q) l ->
  (lo * inject_Z (Z.of_nat (List.length l))
   <= fold_left (fun sum i => sum + Issue.confidence_or_0 i) l 0)%Q
  /\ (fold_left (fun sum i => sum + Issue.confidence_or_0 i) l 0
      <= hi * inject_Z (Z.of_nat (List.length l)))%Q.
Proof.
  induction 1 as [|i l [Hlo Hhi] Hl [IHlo IHhi]].
  - cbn. split; ring_simplify; apply Qle_refl.
  - cbn [fold_left List.length]. rewrite sum_shift.
    rewrite Nat2Z.inj_succ. unfold Z.succ. rewrite inject_Z_plus.
    split.
    + setoid_replace (lo * (inject_Z (Z.of_nat (List.length l)) + inject_Z 1))%Q
        with (0 + lo + lo * inject_Z (Z.of_nat (List.length l)))%Q by ring.
      apply Qplus_le_compat; [|exact IHlo].
      apply Qplus_le_compat; [apply Qle_refl | exact Hlo].
    + setoid_replace (hi * (inject_Z (Z.of_nat (List.length l)) + inject_Z 1))%Q
        with (0 + hi + hi * inject_Z (Z.of_nat (List.length l)))%Q by ring.
      apply Qplus_le_compat; [|exact IHhi].
      apply Qplus_le_compat; [apply Qle_refl | exact Hhi].
Qed.





(** The reply after a cloud-function call that throws. *)
Lemma fallback_after_throw w aiService body :
  EnhancedServer.cloud_function_selected w (Body.useCloudFunction body)
  = true ->
  spec (EnhancedServer.cloud_function_analysis w (Body.repoPath body)
          (Body.commitHash body) (Body.analysisType body))
    (fun _ r => exists e, r = Throw e) ->
  spec (EnhancedServer.post_analyze w aiService body)
    (fun _ r =>
       exists fs,
         r = Ok (Http.mkReply 200 (Js.Obj fs))
         /\ Js.lookup "cloud_function_fallback" fs = Some (Js.Bool true)
         /\ (Shape.common fs \/ Shape.enhanced fs)).
Proof.
  intros Hsel Hthrow.
  unfold EnhancedServer.post_analyze, EnhancedServer.select_backend, log.
  rewrite Hsel. apply spec_emit, spec_emit.
  eapply spec_try_catch with
    (Q1 := fun _ r =>
             exists fs,
               r = Ok (Http.mkReply 200 (Js.Obj fs))
               /\ Js.lookup "cloud_function_fallback" fs
                  = Some (Js.Bool true)
               /\ (Shape.common fs \/ Shape.enhanced fs)).
  - eapply spec_bind with
      (Q1 := fun _ r =>
               exists fs,
                 r = Ok fs
                 /\ Js.lookup "cloud_function_fallback" fs
                    = Some (Js.Bool true)
                 /\ (Shape.common fs \/ Shape.enhanced fs)).
    + apply spec_emit.
      eapply spec_try_catch; [exact Hthrow | |].
      * intros s1 a (e & [=]).
      * intros s1 e _. unfold error_with. apply spec_emit.
        eapply spec_bind;
          [apply ServiceFacts.analyzeRepositoryWithAI_spec | |].
        -- intros s2 fs (_ & _ & fs' & [= <-] & Hs). apply spec_ret.
           eexists. split; [reflexivity|].
           rewrite lookup_set_field. split; [reflexivity|].
           destruct Hs as [(H1 & H2 & H3 & H4)|(H1 & H2)]; [left|right];
             repeat split; apply has_set_field; auto; discriminate.
        -- intros s2 e' (_ & _ & fs' & [=] & _).
    + intros s1 fs (fs' & [= <-] & Hm & Hs).
      apply spec_now_ms; intros t. apply spec_ret.
      eexists. split; [reflexivity|]. rewrite lookup_set_field.
      split; [exact Hm|].
      destruct Hs as [(H1 & H2 & H3 & H4)|(H1 & H2)]; [left|right];
        repeat split; apply has_set_field; auto; discriminate.
    + intros s1 e (fs & [=] & _).
  - auto.
  - intros s1 e (fs & [=] & _).
Qed.







Lemma no_match_in_prefix c pre rest :
  Observed.occurs "/a" (String c pre) = false ->
  Lifecycle.after_prefix "/analyze_code"
    (String c (pre ++ "/analyze_code" ++ rest)) = None.
Proof.
  intros H. cbn [Observed.occurs] in H.
  destruct (Lifecycle.after_prefix "/a" (String c pre)) eqn:E;
    [discriminate|].
  cbn [Lifecycle.after_prefix] in E |- *.
  destruct (Ascii.eqb "/" c); [|reflexivity].
  destruct pre as [|d pre].
  - reflexivity.
  - cbn [String.append Lifecycle.after_prefix] in E |- *.
    destruct (Ascii.eqb "a" d); [discriminate | reflexivity].
Qed.

(** X26: for a cloud function address made of a text without ['/a'],
    then ['/analyze_code'], then anything, the address probed by the
    status route and by the client is the same address with
    ['/health_check'] in place of that ['/analyze_code']. *)
Theorem health_address_of_function_address (pre rest : string) :
  Observed.occurs "/a" pre = false ->
  Routes.healthUrl (pre ++ "/analyze_code" ++ rest)
  = pre ++ "/health_check" ++ rest.
Proof.
  unfold Routes.healthUrl. induction pre as [|c pre IH]; intros H.
  - change ("" ++ "/analyze_code" ++ rest) with ("/analyze_code" ++ rest).
    destruct rest; reflexivity.
  - change (String c pre ++ "/analyze_code" ++ rest)
      with (String c (pre ++ "/analyze_code" ++ rest)).
    cbn [Routes.replace_first].
    rewrite (no_match_in_prefix c pre rest H).
    cbn [String.append]. f_equal. apply IH.
    cbn [Observed.occurs] in H.
    destruct (Lifecycle.after_prefix "/a" (String c pre)); [discriminate|].
    exact H.
Qed.

Lemma health_address_of_function_address_witness :
  Routes.healthUrl
    ("https://us-central1-your-project-id.cloudfunctions.net"
       ++ "/analyze_code" ++ "")
  = "https://us-central1-your-project-id.cloudfunctions.net"
      ++ "/health_check" ++ "".
Proof.
  apply (health_address_of_function_address
           "https://us-central1-your-project-id.cloudfunctions.net" "").
  reflexivity.
Defined.

(** X27: an address in which ['/analyze_code'] does not occur is probed as
    it is: the health check then calls the cloud function itself. *)
Theorem health_address_without_marker (url : string) :
  Observed.occurs "/analyze_code" url = false ->
  Routes.healthUrl url = url.
Proof.
  unfold Routes.healthUrl. induction url as [|c url IH]; intros H.
  - reflexivity.
  - cbn [Observed.occurs] in H. cbn [Routes.replace_first].
    destruct (Lifecycle.after_prefix "/analyze_code" (String c url));
      [discriminate|].
    f_equal. now apply IH.
Qed.

Lemma health_address_without_marker_witness :
  Routes.healthUrl "https://example.org/run" = "https://example.org/run".
Proof.
  apply (health_address_without_marker "https://example.org/run").
  reflexivity.
Defined.
